(** * athere: the two edge proxies and the offline cache worker

    A shallow embedding of

    - [worker.js]                 the combined Cloudflare Worker,
    - [functions/api/claude.js]   the Pages Function behind [/api/claude],
    - [functions/proxy.js]        the Pages Function behind [/proxy],
    - [sw.js]                     the service worker of the front end,

    together with the part of the JavaScript runtime these files call
    ([Headers], [Response], [JSON.stringify], [URLSearchParams], the
    global [fetch] and the Cache API).  Handlers are written in a small
    monad that threads the log of outbound [fetch] calls and propagates
    JavaScript exceptions, so that each definition can be read next to the
    source function it embeds. *)

From Stdlib Require Import String Ascii ZArith List Bool Lia.
From stdpp Require Import base option gmap strings list fin_maps.

Open Scope string_scope.
Open Scope Z_scope.

(** ** Strings *)

Module Str.

(** The double quote, written by code: string literals below never
    contain one. *)
Definition dquote : ascii := "034"%char.
Definition backslash : ascii := "092"%char.

Definition code (c : ascii) : N := N_of_ascii c.

Definition is_upper (c : ascii) : bool :=
  (65 <=? code c)%N && (code c <=? 90)%N.

(** ASCII lower-casing of one byte (header names are byte strings). *)
Definition lower_ascii (c : ascii) : ascii :=
  if is_upper c then ascii_of_N (code c + 32) else c.

Fixpoint lower (s : string) : string :=
  match s with
  | EmptyString => EmptyString
  | String c s' => String (lower_ascii c) (lower s')
  end.

(** [s.startsWith(p)] *)
Fixpoint startsWith (p s : string) : bool :=
  match p, s with
  | EmptyString, _ => true
  | String a p', String b s' => if Ascii.eqb a b then startsWith p' s' else false
  | String _ _, EmptyString => false
  end.


(** [parts.join(sep)] *)
Fixpoint join (sep : string) (parts : list string) : string :=
  match parts with
  | [] => ""
  | [p] => p
  | p :: rest => p +:+ sep +:+ join sep rest
  end.

(** Split at every occurrence of [sep]; the result is never empty. *)
Fixpoint split (sep : ascii) (s : string) : list string :=
  match s with
  | EmptyString => [EmptyString]
  | String c s' =>
      if Ascii.eqb c sep then EmptyString :: split sep s'
      else match split sep s' with
           | [] => [String c EmptyString]
           | w :: ws => String c w :: ws
           end
  end.

(** Split at the first occurrence of [sep]; [None] when there is none. *)
Fixpoint cut (sep : ascii) (s : string) : option (string * string) :=
  match s with
  | EmptyString => None
  | String c s' =>
      if Ascii.eqb c sep then Some (EmptyString, s')
      else match cut sep s' with
           | Some (a, b) => Some (String c a, b)
           | None => None
           end
  end.

Definition hex_digit (n : N) : ascii :=
  if (n <? 10)%N then ascii_of_N (48 + n) else ascii_of_N (87 + n).

Definition hex_value (c : ascii) : option N :=
  let n := code c in
  if (48 <=? n)%N && (n <=? 57)%N then Some (n - 48)%N
  else if (65 <=? n)%N && (n <=? 70)%N then Some (n - 55)%N
  else if (97 <=? n)%N && (n <=? 102)%N then Some (n - 87)%N
  else None.

End Str.

(** ** The JavaScript runtime the handlers call *)

Module Js.

(** A thrown value.  Everything the runtime throws here ([fetch]
    rejections, body read failures, the [Response] constructor) is an
    [Error] object; the handlers read its [message]. *)
Record Error := mkError { name : string; message : string }.

Inductive Result (A : Type) : Type :=
| Ok (a : A)
| Throw (e : Error).
Arguments Ok {A} a.
Arguments Throw {A} e.

(** [!v] for a value that is [undefined] or a string: the empty string
    is falsy like [undefined]. *)
Definition truthy (v : option string) : bool :=
  match v with
  | None => false
  | Some s => negb (String.eqb s "")
  end.

(** *** [Headers]

    A header list keyed by the lower-cased name; [append] joins the
    values of a repeated name with a comma and a space, which is what
    [get] would return for them. *)
Module Headers.

Definition get (name : string) (h : gmap string string) : option string :=
  h !! Str.lower name.

Definition has (name : string) (h : gmap string string) : bool :=
  bool_decide (is_Some (get name h)).

Definition set (name value : string) (h : gmap string string) : gmap string string :=
  <[Str.lower name := value]> h.

Definition delete (name : string) (h : gmap string string) : gmap string string :=
  base.delete (Str.lower name) h.

Definition append (name value : string) (h : gmap string string) : gmap string string :=
  match h !! Str.lower name with
  | Some old => <[Str.lower name := old +:+ ", " +:+ value]> h
  | None => <[Str.lower name := value]> h
  end.

(** [new Headers(init)] for a record of strings such as
    [{ 'Content-Type': 'application/json' }], or for the raw header
    list of a response received from the network. *)
Definition of_entries (entries : list (string * string)) : gmap string string :=
  fold_left (fun h kv => append (fst kv) (snd kv) h) entries ∅.

End Headers.

(** What [init.headers] may be in this code base: absent, an object
    literal, or a [Headers] object. *)
Inductive HeadersInit :=
| FromObject (entries : list (string * string))
| FromHeaders (h : gmap string string).

(** [new Headers(init)] *)
Definition Headers_new (init : HeadersInit) : gmap string string :=
  match init with
  | FromObject entries => Headers.of_entries entries
  | FromHeaders h => h
  end.

(** *** [Response] *)

Inductive Body :=
| BNull                       (* null *)
| BText (s : string)          (* a string *)
| BBuffer (bytes : string).   (* an ArrayBuffer *)

Definition body_bytes (b : Body) : string :=
  match b with
  | BNull => ""
  | BText s => s
  | BBuffer s => s
  end.

Definition body_is_null (b : Body) : bool :=
  match b with BNull => true | _ => false end.

Record Response := mkResponse {
  status : Z;
  headers : gmap string string;
  body : Body
}.

Record ResponseInit := mkInit {
  init_status : option Z;
  init_headers : option HeadersInit
}.

(** [res.ok] *)
Definition ok (r : Response) : bool := (200 <=? status r) && (status r <=? 299).

(** [res.clone()] of a response whose body has not been read. *)
Definition clone (r : Response) : Response := r.

(** 101, 204, 205 and 304 *)
Definition null_body_status (s : Z) : bool :=
  (s =? 101) || (s =? 204) || (s =? 205) || (s =? 304).

(** The wording of the two errors is the runtime's; nothing below
    depends on it. *)
Definition status_range_error : Error :=
  mkError "RangeError"
    "Responses may only be constructed with status codes in the range 200 to 599, inclusive.".
Definition null_body_error : Error :=
  mkError "TypeError" "Response with null body status cannot have a body.".

(** [new Response(body, init)].

    The constructor is partial (Fetch standard, "initialize a
    response"): a status outside 200..599 is a [RangeError], and a body
    with a null body status is a [TypeError].  The Workers runtime
    accepts a zero-length body with a null body status and turns it into
    the null body; that is the case a relayed 204 or 304 takes, and it
    is modelled here.  A string body without a Content-Type gets
    [text/plain;charset=UTF-8]; an ArrayBuffer carries no type. *)
Definition Response_new (b : Body) (init : ResponseInit) : Result Response :=
  let s := default 200 (init_status init) in
  let h := Headers_new (default (FromObject []) (init_headers init)) in
  if negb ((200 <=? s) && (s <=? 599)) then Throw status_range_error
  else if null_body_status s && negb (body_is_null b) then
    if String.eqb (body_bytes b) "" then Ok (mkResponse s h BNull)
    else Throw null_body_error
  else
    match b with
    | BText _ =>
        if Headers.has "Content-Type" h then Ok (mkResponse s h b)
        else Ok (mkResponse s (Headers.append "Content-Type" "text/plain;charset=UTF-8" h) b)
    | _ => Ok (mkResponse s h b)
    end.

(** *** [JSON.stringify] on a flat object of strings *)
Module JSON.

(** QuoteJSONString, on the bytes of a UTF-8 string: the seven short
    escapes, [\u00xx] for the other control characters, every other
    byte as it is. *)
Definition escape (c : ascii) : string :=
  let n := Str.code c in
  if (n =? 8)%N then String Str.backslash "b"
  else if (n =? 9)%N then String Str.backslash "t"
  else if (n =? 10)%N then String Str.backslash "n"
  else if (n =? 12)%N then String Str.backslash "f"
  else if (n =? 13)%N then String Str.backslash "r"
  else if (n =? 34)%N then String Str.backslash (String Str.dquote "")
  else if (n =? 92)%N then String Str.backslash (String Str.backslash "")
  else if (n <? 32)%N then
    String Str.backslash
      (String "u" (String "0" (String "0"
        (String (Str.hex_digit (n / 16)) (String (Str.hex_digit (n mod 16)) "")))))
  else String c "".

Fixpoint escape_all (s : string) : string :=
  match s with
  | EmptyString => EmptyString
  | String c s' => escape c +:+ escape_all s'
  end.

Definition quote (s : string) : string :=
  String Str.dquote (escape_all s +:+ String Str.dquote "").

Definition member (kv : string * string) : string :=
  quote (fst kv) +:+ ":" +:+ quote (snd kv).

(** [JSON.stringify({ k1: v1, ... })] with string values. *)
Definition stringify (fields : list (string * string)) : string :=
  "{" +:+ Str.join "," (map member fields) +:+ "}".

End JSON.

(** *** URLs *)

(** A parsed URL: what [new URL(request.url)] gives.  [query] is the
    text after the question mark (empty when there is none). *)
Record URL := mkURL {
  protocol : string;
  hostname : string;
  port : string;
  pathname : string;
  query : string
}.

(** [url.origin] *)
Definition origin (u : URL) : string * string * string :=
  (protocol u, hostname u, port u).

Module URLSearchParams.

Definition plus_to_space (c : ascii) : ascii :=
  if Ascii.eqb c "+" then " "%char else c.

Fixpoint map_ascii (f : ascii -> ascii) (s : string) : string :=
  match s with
  | EmptyString => EmptyString
  | String c s' => String (f c) (map_ascii f s')
  end.

(** Percent-decoding: [%XY] with two hex digits is one byte. *)
Fixpoint percent_decode (s : string) : string :=
  match s with
  | EmptyString => EmptyString
  | String c s' =>
      match s' with
      | String a (String b rest) =>
          if Ascii.eqb c "%" then
            match Str.hex_value a, Str.hex_value b with
            | Some x, Some y => String (ascii_of_N (16 * x + y)) (percent_decode rest)
            | _, _ => String c (percent_decode s')
            end
          else String c (percent_decode s')
      | _ => String c (percent_decode s')
      end
  end.

Definition decode (s : string) : string :=
  percent_decode (map_ascii plus_to_space s).

Definition parse_pair (piece : string) : string * string :=
  match Str.cut "=" piece with
  | Some (n, v) => (decode n, decode v)
  | None => (decode piece, "")
  end.

(** The application/x-www-form-urlencoded parser: split at [&], skip
    empty pieces, split each piece at its first [=]. *)
Definition parse (q : string) : list (string * string) :=
  map parse_pair (filter (fun piece => piece ≠ "") (Str.split "&" q)).

(** [params.get(name)]: the first value under [name], or [null]. *)
Fixpoint get (name : string) (params : list (string * string)) : option string :=
  match params with
  | [] => None
  | (n, v) :: rest => if String.eqb n name then Some v else get name rest
  end.

End URLSearchParams.

(** [url.searchParams] *)
Definition searchParams (u : URL) : list (string * string) :=
  URLSearchParams.parse (query u).

End Js.

(** ** Effects: a world to ask, a state to thread, exceptions *)

Module Eff.
Import Js.

(** A computation reads the world [W] (whatever answers its requests),
    updates a state [S] and returns or throws. *)
Definition t (W S A : Type) : Type := W -> S -> Result A * S.

Definition ret {W S A} (a : A) : t W S A := fun _ s => (Ok a, s).

Definition bind {W S A B} (m : t W S A) (k : A -> t W S B) : t W S B :=
  fun w s =>
    match m w s with
    | (Ok a, s') => k a w s'
    | (Throw e, s') => (Throw e, s')
    end.

(** [try { m } catch (err) { h(err) }], and [p.catch(h)] on promises *)
Definition try_catch {W S A} (m : t W S A) (h : Error -> t W S A) : t W S A :=
  fun w s =>
    match m w s with
    | (Ok a, s') => (Ok a, s')
    | (Throw e, s') => h e w s'
    end.

Definition lift {W S A} (r : Result A) : t W S A := fun _ s => (r, s).

End Eff.

Declare Scope js_scope.
Delimit Scope js_scope with js.
Notation "x <- m ;; k" := (Eff.bind m (fun x => k))
  (at level 100, m at next level, right associativity) : js_scope.
Notation "'try' m 'catch' h" := (Eff.try_catch m h)
  (at level 100, m at next level, h at next level) : js_scope.

(** ** Outbound requests *)

Module Net.
Import Js.

(** The second argument of the global [fetch]. *)
Record RequestInit := mkRequestInit {
  ri_method : option string;
  ri_headers : list (string * string);
  ri_body : option string;
  ri_redirect : option string
}.

(** One call [fetch(target, init)]. *)
Record FetchCall := mkCall { target : string; init : RequestInit }.

(** The response a [fetch] resolves to: its status, its header list as
    received, and what reading its body ([text()], [arrayBuffer()])
    resolves to or rejects with. *)
Record Incoming := mkIncoming {
  in_status : Z;
  in_headers : list (string * string);
  in_body : Result string
}.

Inductive FetchReply :=
| Rejected (e : Error)
| Resolved (r : Incoming).

(** The world outside the handler: what each call is answered with. *)
Definition Network : Type := FetchCall -> FetchReply.

(** A computation that may call [fetch] (the calls are logged, oldest
    first) and may throw. *)
Definition M (A : Type) : Type := Eff.t Network (list FetchCall) A.

(** A runtime call that returns or throws without touching the network. *)
Definition lift {A} (r : Result A) : M A := Eff.lift r.

(** [await fetch(target, init)] *)
Definition fetch (t : string) (i : RequestInit) : M Incoming :=
  fun net log =>
    let call := mkCall t i in
    match net call with
    | Rejected e => (Throw e, (log ++ [call])%list)
    | Resolved r => (Ok r, (log ++ [call])%list)
    end.

(** Reading the body of a received response.  With a null body status
    the response has no body, whatever the peer sent after the headers
    (Fetch standard, main fetch), and reading it gives the empty
    content. *)
Definition read_body (r : Incoming) : Result string :=
  if null_body_status (in_status r) then Ok "" else in_body r.

(** [await response.text()] and [await response.arrayBuffer()] *)
Definition text (r : Incoming) : M string := lift (read_body r).
Definition arrayBuffer (r : Incoming) : M string := lift (read_body r).

(** Run a handler from an empty log. *)
Definition run {A} (net : Network) (m : M A) : Result A * list FetchCall :=
  m net [].

(** [obj[name]] on an object literal of strings. *)
Fixpoint property (name : string) (obj : list (string * string)) : option string :=
  match obj with
  | [] => None
  | (k, v) :: rest => if String.eqb k name then Some v else property name rest
  end.

End Net.

(** ** Requests as the handlers receive them *)

Module Edge.
Import Js.

(** The inbound request: [body] is what [await request.text()] gives. *)
Record Request := mkRequest {
  method : string;
  url : URL;
  body : Result string
}.

(** The bindings of the deployment.  [ASSETS], when bound, answers
    static asset requests. *)
Record Env := mkEnv {
  ANTHROPIC_API_KEY : option string;
  ASSETS : option (Request -> Result Response)
}.

(** The argument of a Pages Function. *)
Record Context := mkContext { request : Request; env : Env }.

End Edge.

(** ** worker.js *)

Module Worker.
Import Js Net Edge.
Local Open Scope js_scope.

Definition CORS_HEADERS : list (string * string) :=
  [ ("Access-Control-Allow-Origin", "*");
    ("Access-Control-Allow-Methods", "GET, POST, OPTIONS");
    ("Access-Control-Allow-Headers", "Content-Type, Authorization");
    ("Access-Control-Max-Age", "86400") ].

Definition corsResponse (b : Body) (init : ResponseInit) : Result Response :=
  let headers := Headers_new (default (FromObject []) (init_headers init)) in
  let headers :=
    fold_left (fun h kv => Headers.set (fst kv) (snd kv) h) CORS_HEADERS headers in
  Response_new b (mkInit (init_status init) (Some (FromHeaders headers))).

Definition json_headers : option HeadersInit :=
  Some (FromObject [("Content-Type", "application/json")]).

(** The [/api/claude] branch, after the method and path test. *)
Definition claude (request : Request) (env : Env) : M Response :=
  let apiKey := ANTHROPIC_API_KEY env in
  if negb (truthy apiKey) then
    lift (corsResponse
            (BText (JSON.stringify [("error", "ANTHROPIC_API_KEY not configured")]))
            (mkInit (Some 500) json_headers))
  else
    (* a non-empty string from here on *)
    let apiKey := default "" apiKey in
    try
      (body <- lift (Edge.body request) ;;
       apiResponse <-
         Net.fetch "https://api.anthropic.com/v1/messages"
           (mkRequestInit (Some "POST")
              [ ("Content-Type", "application/json");
                ("x-api-key", apiKey);
                ("anthropic-version", "2023-06-01") ]
              (Some body) None) ;;
       responseBody <- text apiResponse ;;
       lift (corsResponse (BText responseBody)
               (mkInit (Some (in_status apiResponse)) json_headers)))
    catch
      (fun err =>
         lift (corsResponse (BText (JSON.stringify [("error", message err)]))
                 (mkInit (Some 502) json_headers))).

(** The [/proxy] branch, after the path test. *)
Definition proxy (request : Request) : M Response :=
  let targetUrl := URLSearchParams.get "url" (searchParams (url request)) in
  if negb (truthy targetUrl) then
    lift (corsResponse (BText "Missing url parameter") (mkInit (Some 400) None))
  else
    let targetUrl := default "" targetUrl in
    try
      (response <-
         Net.fetch targetUrl
           (mkRequestInit None
              [ ("User-Agent", "Mozilla/5.0 (compatible; AtHereBot/1.0)");
                ("Accept", "text/html,application/xhtml+xml,application/xml;q=0.9,*/*;q=0.8");
                ("Accept-Language", "en-AU,en;q=0.9") ]
              None (Some "follow")) ;;
       body <- arrayBuffer response ;;
       let headers := Headers_new (FromObject (in_headers response)) in
       let headers := Headers.delete "Content-Security-Policy" headers in
       let headers := Headers.delete "X-Frame-Options" headers in
       lift (corsResponse (BBuffer body)
               (mkInit (Some (in_status response)) (Some (FromHeaders headers)))))
    catch
      (fun err =>
         lift (corsResponse (BText ("Proxy error: " +:+ message err))
                 (mkInit (Some 502) None))).

(** The default export's [fetch(request, env)]. *)
Definition fetch (request : Request) (env : Env) : M Response :=
  let url := url request in
  if String.eqb (method request) "OPTIONS" then
    lift (corsResponse BNull (mkInit (Some 204) None))
  else if String.eqb (pathname url) "/api/claude" && String.eqb (method request) "POST" then
    claude request env
  else if String.eqb (pathname url) "/proxy" then
    proxy request
  else
    match ASSETS env with
    | Some assets => lift (assets request)
    | None => lift (Response_new (BText "Not found") (mkInit (Some 404) None))
    end.

End Worker.

(** ** functions/api/claude.js *)

Module ClaudeFunction.
Import Js Net Edge.
Local Open Scope js_scope.

Definition json_cors_headers : option HeadersInit :=
  Some (FromObject [ ("Content-Type", "application/json");
                     ("Access-Control-Allow-Origin", "*") ]).

Definition onRequestPost (context : Context) : M Response :=
  let apiKey := ANTHROPIC_API_KEY (env context) in
  if negb (truthy apiKey) then
    lift (Response_new
            (BText (JSON.stringify
               [("error", "ANTHROPIC_API_KEY not configured. Add it in Cloudflare Pages > Settings > Environment variables.")]))
            (mkInit (Some 500) json_cors_headers))
  else
    (* a non-empty string from here on *)
    let apiKey := default "" apiKey in
    try
      (body <- lift (Edge.body (request context)) ;;
       apiResponse <-
         Net.fetch "https://api.anthropic.com/v1/messages"
           (mkRequestInit (Some "POST")
              [ ("Content-Type", "application/json");
                ("x-api-key", apiKey);
                ("anthropic-version", "2023-06-01") ]
              (Some body) None) ;;
       responseBody <- text apiResponse ;;
       lift (Response_new (BText responseBody)
               (mkInit (Some (in_status apiResponse)) json_cors_headers)))
    catch
      (fun err =>
         lift (Response_new (BText (JSON.stringify [("error", message err)]))
                 (mkInit (Some 502) json_cors_headers))).

Definition onRequestOptions : M Response :=
  lift (Response_new BNull
          (mkInit (Some 204)
             (Some (FromObject
                [ ("Access-Control-Allow-Origin", "*");
                  ("Access-Control-Allow-Methods", "POST, OPTIONS");
                  ("Access-Control-Allow-Headers", "Content-Type");
                  ("Access-Control-Max-Age", "86400") ])))).

End ClaudeFunction.

(** ** functions/proxy.js *)

Module ProxyFunction.
Import Js Net Edge.
Local Open Scope js_scope.

Definition cors_only : option HeadersInit :=
  Some (FromObject [("Access-Control-Allow-Origin", "*")]).

Definition onRequestGet (context : Context) : M Response :=
  let url := url (request context) in
  let targetUrl := URLSearchParams.get "url" (searchParams url) in
  if negb (truthy targetUrl) then
    lift (Response_new (BText "Missing url parameter") (mkInit (Some 400) cors_only))
  else
    let targetUrl := default "" targetUrl in
    try
      (response <-
         Net.fetch targetUrl
           (mkRequestInit None
              [ ("User-Agent", "Mozilla/5.0 (compatible; AtHereBot/1.0)");
                ("Accept", "text/html,application/xhtml+xml,application/xml;q=0.9,*/*;q=0.8");
                ("Accept-Language", "en-AU,en;q=0.9") ]
              None (Some "follow")) ;;
       body <- arrayBuffer response ;;
       let headers := Headers_new (FromObject (in_headers response)) in
       let headers := Headers.set "Access-Control-Allow-Origin" "*" headers in
       let headers := Headers.delete "Content-Security-Policy" headers in
       let headers := Headers.delete "X-Frame-Options" headers in
       lift (Response_new (BBuffer body)
               (mkInit (Some (in_status response)) (Some (FromHeaders headers)))))
    catch
      (fun err =>
         lift (Response_new (BText ("Proxy error: " +:+ message err))
                 (mkInit (Some 502) cors_only))).

Definition onRequestOptions : M Response :=
  lift (Response_new BNull
          (mkInit (Some 204)
             (Some (FromObject
                [ ("Access-Control-Allow-Origin", "*");
                  ("Access-Control-Allow-Methods", "GET, OPTIONS");
                  ("Access-Control-Allow-Headers", "Content-Type");
                  ("Access-Control-Max-Age", "86400") ])))).

End ProxyFunction.

(** ** sw.js *)

Module ServiceWorker.
Import Js.
Local Open Scope js_scope.

#[global] Instance URL_eq_dec : EqDecision URL.
Proof. solve_decision. Defined.

#[global] Instance URL_countable : Countable URL.
Proof.
  refine (inj_countable'
            (fun u => (protocol u, hostname u, port u, pathname u, query u))
            (fun t => let '(a, b, c, d, e) := t in mkURL a b c d e) _).
  intros []; reflexivity.
Defined.

(** A request as the worker sees it in a fetch event. *)
Record Request := mkRequest { method : string; url : URL }.

(** The world of the worker: its own location and the network. *)
Record World := mkWorld {
  location : URL;
  network : Request -> Result Response
}.

(** One cache bucket maps a URL to the stored response; the storage
    keeps its buckets in creation order, which is the order
    [caches.match] searches them in.  Every [cache.put] that went through
    is also recorded in [writes], and every network request in
    [requests]. *)
Record State := mkState {
  caches : list (string * gmap URL Response);
  requests : list Request;
  writes : list (string * Request * Response)
}.

Definition Sw (A : Type) : Type := Eff.t World State A.

Definition CACHE : string := "athere-v20c".
Definition ASSETS : list string := ["/"].

(** A path such as ['/'] resolved against the worker's location. *)
Definition resolve (base : URL) (path : string) : URL :=
  mkURL (protocol base) (hostname base) (port base) path "".

(** The request [caches.match('/')] and [cache.addAll(['/'])] build
    from a string. *)
Definition request_of (path : string) : Sw Request :=
  fun w s => (Ok (mkRequest "GET" (resolve (location w) path)), s).

Fixpoint lookup_caches (u : URL) (cs : list (string * gmap URL Response))
  : option Response :=
  match cs with
  | [] => None
  | (_, c) :: rest =>
      match c !! u with
      | Some r => Some r
      | None => lookup_caches u rest
      end
  end.

(** [caches.match(request)]: only GET requests match, by URL. *)
Definition caches_match (rq : Request) : Sw (option Response) :=
  fun _ s =>
    if String.eqb (method rq) "GET" then (Ok (lookup_caches (url rq) (caches s)), s)
    else (Ok None, s).

(** [fetch(request)] *)
Definition fetch (rq : Request) : Sw Response :=
  fun w s =>
    (network w rq, mkState (caches s) (requests s ++ [rq])%list (writes s)).

Fixpoint has_cache (nm : string) (cs : list (string * gmap URL Response)) : bool :=
  match cs with
  | [] => false
  | (n, _) :: rest => String.eqb n nm || has_cache nm rest
  end.

(** [caches.open(name)]: the bucket is created when it does not exist. *)
Definition caches_open (nm : string) : Sw string :=
  fun _ s =>
    if has_cache nm (caches s) then (Ok nm, s)
    else (Ok nm, mkState (caches s ++ [(nm, ∅)])%list (requests s) (writes s)).

Fixpoint store (nm : string) (u : URL) (r : Response)
  (cs : list (string * gmap URL Response)) : list (string * gmap URL Response) :=
  match cs with
  | [] => []
  | (n, c) :: rest =>
      if String.eqb n nm then (n, <[u := r]> c) :: rest
      else (n, c) :: store nm u r rest
  end.

Definition is_space (c : ascii) : bool := Ascii.eqb c " " || Ascii.eqb c "009".

Fixpoint trim_left (s : string) : string :=
  match s with
  | EmptyString => EmptyString
  | String c s' => if is_space c then trim_left s' else s
  end.

Fixpoint trim_right (s : string) : string :=
  match s with
  | EmptyString => EmptyString
  | String c s' =>
      let t := trim_right s' in
      if is_space c && String.eqb t "" then EmptyString else String c t
  end.

(** The response has a [Vary] header with a [*] member. *)
Definition varies_on_everything (r : Response) : bool :=
  match Headers.get "Vary" (headers r) with
  | None => false
  | Some v =>
      existsb (fun member => String.eqb (trim_right (trim_left member)) "*")
        (Str.split "," v)
  end.

Definition put_error : Error := mkError "TypeError" "Cache.put: the entry is not cacheable".

(** What [cache.put] and [cache.addAll] refuse: a request that is not an
    http(s) GET, a partial response, a response that varies on [*]. *)
Definition uncacheable (rq : Request) (r : Response) : bool :=
  negb (String.eqb (protocol (url rq)) "http:" || String.eqb (protocol (url rq)) "https:")
  || negb (String.eqb (method rq) "GET")
  || (status r =? 206)
  || varies_on_everything r.

(** [cache.put(request, response)] on the bucket [nm]. *)
Definition cache_put (nm : string) (rq : Request) (r : Response) : Sw unit :=
  fun _ s =>
    if uncacheable rq r then (Throw put_error, s)
    else (Ok tt, mkState (store nm (url rq) r (caches s)) (requests s)
                   (writes s ++ [(nm, rq, r)])%list).

(** A promise nobody waits for: its rejection is lost. *)
Definition detached (m : Sw unit) : Sw unit :=
  try m catch (fun _ => Eff.ret tt).

Definition addAll_error : Error := mkError "TypeError" "Cache.addAll: bad response".

(** The fetching half of [cache.addAll]: every request is fetched, and a
    response that is not ok (or not cacheable) rejects the whole call. *)
Fixpoint fetch_all (paths : list string) : Sw (list (Request * Response)) :=
  match paths with
  | [] => Eff.ret []
  | p :: rest =>
      rq <- request_of p ;;
      r <- fetch rq ;;
      if negb (ok r) || uncacheable rq r then Eff.lift (Throw addAll_error)
      else
        more <- fetch_all rest ;;
        Eff.ret ((rq, r) :: more)
  end.

Fixpoint put_all (nm : string) (entries : list (Request * Response)) : Sw unit :=
  match entries with
  | [] => Eff.ret tt
  | (rq, r) :: rest => _ <- cache_put nm rq r ;; put_all nm rest
  end.

(** [cache.addAll(paths)]: nothing is stored unless every fetch succeeded. *)
Definition addAll (nm : string) (paths : list string) : Sw unit :=
  entries <- fetch_all paths ;;
  put_all nm entries.

(** The [install] listener. *)
Definition oninstall : Sw unit :=
  try (c <- caches_open CACHE ;; addAll c ASSETS)
  catch (fun _ => Eff.ret tt).

(** The [activate] listener: every bucket but the current one goes. *)
Definition onactivate : Sw unit :=
  fun _ s =>
    (Ok tt, mkState (filter (fun nc => nc.1 = CACHE) (caches s)) (requests s) (writes s)).

(** The test at the top of the [fetch] listener. *)
Definition bypassed (location : URL) (rq : Request) : bool :=
  Str.startsWith "/api/" (pathname (url rq))
  || String.eqb (pathname (url rq)) "/proxy"
  || negb (String.eqb (hostname (url rq)) (hostname location))
  || negb (String.eqb (method rq) "GET").

(** The [fetch] listener.  [None]: the listener returned without
    [respondWith], the browser handles the request.  [Some r]: the promise
    given to [respondWith] resolved to [r], which is [None] when it
    resolved to [undefined]. *)
Definition onfetch (e_request : Request) : Sw (option (option Response)) :=
  fun w =>
    (let url := url e_request in
     if bypassed (location w) e_request then Eff.ret None
     else
       answer <-
         (r <- caches_match e_request ;;
          match r with
          | Some r => Eff.ret (Some r)
          | None =>
              try
                (res <- fetch e_request ;;
                 _ <- (if ok res && bool_decide (origin url = origin (location w)) then
                         let clone := clone res in
                         detached (c <- caches_open CACHE ;; cache_put c e_request clone)
                       else Eff.ret tt) ;;
                 Eff.ret (Some res))
              catch
                (fun _ => root <- request_of "/" ;; caches_match root)
          end) ;;
       Eff.ret (Some answer)) w.

End ServiceWorker.


(** * What the handlers are expected to do *)

(** ** The calls the handlers make *)

Module Calls.
Import Js Net.

Definition upstream : string := "https://api.anthropic.com/v1/messages".

(** The call to the upstream with credential [key] and payload [payload]. *)
Definition upstream_call (key payload : string) : FetchCall :=
  mkCall upstream
    (mkRequestInit (Some "POST")
       [ ("Content-Type", "application/json");
         ("x-api-key", key);
         ("anthropic-version", "2023-06-01") ]
       (Some payload) None).

(** The call the URL proxy makes for [target]. *)
Definition target_call (target : string) : FetchCall :=
  mkCall target
    (mkRequestInit None
       [ ("User-Agent", "Mozilla/5.0 (compatible; AtHereBot/1.0)");
         ("Accept", "text/html,application/xhtml+xml,application/xml;q=0.9,*/*;q=0.8");
         ("Accept-Language", "en-AU,en;q=0.9") ]
       None (Some "follow")).



(** What the handler holds once a fetch went through: the received
    response and the content read from it. *)
Definition received (reply : FetchReply) : Result (Incoming * string) :=
  match reply with
  | Rejected e => Throw e
  | Resolved r =>
      match read_body r with
      | Throw e => Throw e
      | Ok t => Ok (r, t)
      end
  end.

End Calls.

(** ** The answers of worker.js *)

Module WorkerAnswers.
Import Js Net Edge Calls.

(** The headers of every JSON answer of the worker. *)
Definition json_cors : gmap string string :=
  fold_left (fun h kv => Headers.set (fst kv) (snd kv) h) Worker.CORS_HEADERS
    (Headers_new (FromObject [("Content-Type", "application/json")])).

(** The headers [corsResponse] builds on top of [h]. *)
Definition with_cors (h : gmap string string) : gmap string string :=
  fold_left (fun h kv => Headers.set (fst kv) (snd kv) h) Worker.CORS_HEADERS h.

Definition bad_gateway (err : Error) : Response :=
  mkResponse 502 json_cors (BText (JSON.stringify [("error", message err)])).

(** What the [/api/claude] branch answers, from what came back from the
    upstream alone. *)
Definition claude_answer (got : Result (Incoming * string)) : Result Response :=
  let attempt :=
    match got with
    | Ok (r, t) =>
        Worker.corsResponse (BText t) (mkInit (Some (in_status r)) Worker.json_headers)
    | Throw e => Throw e
    end in
  match attempt with
  | Ok resp => Ok resp
  | Throw err => Ok (bad_gateway err)
  end.

Definition not_configured : Response :=
  mkResponse 500 json_cors
    (BText (JSON.stringify [("error", "ANTHROPIC_API_KEY not configured")])).

Definition proxy_error (err : Error) : Result Response :=
  Worker.corsResponse (BText ("Proxy error: " +:+ message err)) (mkInit (Some 502) None).

Definition proxy_answer (got : Result (Incoming * string)) : Result Response :=
  let attempt :=
    match got with
    | Ok (r, bytes) =>
        Worker.corsResponse (BBuffer bytes)
          (mkInit (Some (in_status r))
             (Some (FromHeaders
                (Headers.delete "X-Frame-Options"
                   (Headers.delete "Content-Security-Policy"
                      (Headers_new (FromObject (in_headers r))))))))
    | Throw e => Throw e
    end in
  match attempt with
  | Ok resp => Ok resp
  | Throw err => proxy_error err
  end.

Definition plain_cors : gmap string string :=
  Headers.append "Content-Type" "text/plain;charset=UTF-8" (with_cors ∅).

Definition missing_url : Response :=
  mkResponse 400 plain_cors (BText "Missing url parameter").

Definition preflight : Response := mkResponse 204 (with_cors ∅) BNull.

End WorkerAnswers.

(** ** The answers of functions/api/claude.js *)

Module ClaudeAnswers.
Import Js Net Edge Calls.

Definition json_cors : gmap string string :=
  Headers.of_entries [ ("Content-Type", "application/json");
                       ("Access-Control-Allow-Origin", "*") ].

Definition bad_gateway (err : Error) : Response :=
  mkResponse 502 json_cors (BText (JSON.stringify [("error", message err)])).

Definition not_configured : Response :=
  mkResponse 500 json_cors
    (BText (JSON.stringify
       [("error", "ANTHROPIC_API_KEY not configured. Add it in Cloudflare Pages > Settings > Environment variables.")])).

(** What [onRequestPost] answers, from what came back from the upstream
    alone. *)
Definition answer (got : Result (Incoming * string)) : Result Response :=
  let attempt :=
    match got with
    | Ok (r, t) =>
        Response_new (BText t)
          (mkInit (Some (in_status r)) ClaudeFunction.json_cors_headers)
    | Throw e => Throw e
    end in
  match attempt with
  | Ok resp => Ok resp
  | Throw err => Ok (bad_gateway err)
  end.

Definition preflight : Response :=
  mkResponse 204
    (Headers.of_entries
       [ ("Access-Control-Allow-Origin", "*");
         ("Access-Control-Allow-Methods", "POST, OPTIONS");
         ("Access-Control-Allow-Headers", "Content-Type");
         ("Access-Control-Max-Age", "86400") ])
    BNull.

End ClaudeAnswers.

(** ** The answers of functions/proxy.js *)

Module ProxyAnswers.
Import Js Net Edge Calls.

Definition plain_cors : gmap string string :=
  Headers.append "Content-Type" "text/plain;charset=UTF-8"
    (Headers.of_entries [("Access-Control-Allow-Origin", "*")]).

Definition proxy_error (err : Error) : Response :=
  mkResponse 502 plain_cors (BText ("Proxy error: " +:+ message err)).

Definition missing_url : Response :=
  mkResponse 400 plain_cors (BText "Missing url parameter").

Definition answer (got : Result (Incoming * string)) : Result Response :=
  let attempt :=
    match got with
    | Ok (r, bytes) =>
        Response_new (BBuffer bytes)
          (mkInit (Some (in_status r))
             (Some (FromHeaders
                (Headers.delete "X-Frame-Options"
                   (Headers.delete "Content-Security-Policy"
                      (Headers.set "Access-Control-Allow-Origin" "*"
                         (Headers_new (FromObject (in_headers r)))))))))
    | Throw e => Throw e
    end in
  match attempt with
  | Ok resp => Ok resp
  | Throw err => Ok (proxy_error err)
  end.

Definition preflight : Response :=
  mkResponse 204
    (Headers.of_entries
       [ ("Access-Control-Allow-Origin", "*");
         ("Access-Control-Allow-Methods", "GET, OPTIONS");
         ("Access-Control-Allow-Headers", "Content-Type");
         ("Access-Control-Max-Age", "86400") ])
    BNull.

End ProxyAnswers.

(** ** The states sw.js goes through *)

Module CacheSteps.
Import Js ServiceWorker.

(** The state after the network was asked for [rq]. *)
Definition asked (rq : Request) (s : State) : State :=
  mkState (caches s) (requests s ++ [rq])%list (writes s).

(** The buckets after [caches.open(CACHE)]. *)
Definition opened (cs : list (string * gmap URL Response)) : list (string * gmap URL Response) :=
  if has_cache CACHE cs then cs else (cs ++ [(CACHE, ∅)])%list.

(** The test before [cache.put] in the [fetch] listener. *)
Definition storable (w : World) (rq : Request) (res : Response) : bool :=
  ok res && bool_decide (origin (url rq) = origin (location w)).

(** The request [caches.match('/')] looks up. *)
Definition root (w : World) : URL := resolve (location w) "/".

End CacheSteps.

(** ** The vocabulary of the specification *)

Section EdgeVocabulary.
Import Js Net Edge Calls.


(** The target's headers as the specification relays them: without the two
    security headers, with the permissive cross-origin header. *)
Definition relayed_headers (received : list (string * string)) : gmap string string :=
  Headers.set "Access-Control-Allow-Origin" "*"
    (Headers.delete "X-Frame-Options"
       (Headers.delete "Content-Security-Policy" (Headers.of_entries received))).

End EdgeVocabulary.

Section CacheVocabulary.
Import Js ServiceWorker.

(** A write into a bucket that the specification allows: into the current
    bucket, of the ok network response to a same-origin GET request. *)
Definition sound_write (w : World) (e : string * Request * Response) : Prop :=
  e.1.1 = CACHE /\
  ok e.2 = true /\
  origin (url e.1.2) = origin (location w) /\
  method e.1.2 = "GET" /\
  network w e.1.2 = Ok e.2.

(** The bucket [nm] holds [r] under [u]. *)
Definition entry (cs : list (string * gmap URL Response))
  (nm : string) (u : URL) (r : Response) : Prop :=
  exists c, In (nm, c) cs /\ c !! u = Some r.

(** The request targets one of the proxy paths. *)
Definition proxy_path (rq : Request) : bool :=
  Str.startsWith "/api/" (pathname (url rq)) || String.eqb (pathname (url rq)) "/proxy".

End CacheVocabulary.

(** ** Concrete requests, networks and states *)

Module Samples.
Import Js Net Edge.

Definition site (path q : string) : URL := mkURL "https:" "athere.example" "" path q.

Definition unconfigured : Env := mkEnv None None.
Definition configured : Env := mkEnv (Some "sk-ant-api03-secret") None.

Definition offline : Network :=
  fun _ => Rejected (mkError "TypeError" "fetch failed").

Definition post_claude : Request :=
  mkRequest "POST" (site "/api/claude" "")
    (Ok ("{" +:+ JSON.quote "model" +:+ ":" +:+ JSON.quote "x" +:+ "}")).

Definition options_claude : Request := mkRequest "OPTIONS" (site "/api/claude" "") (Ok "").
Definition options_proxy : Request := mkRequest "OPTIONS" (site "/proxy" "") (Ok "").

Definition get_proxy (q : string) : Request := mkRequest "GET" (site "/proxy" q) (Ok "").

(** An upstream that answers 200 with [{"id":"msg_1"}]. *)
Definition msg_1 : string := "{" +:+ JSON.quote "id" +:+ ":" +:+ JSON.quote "msg_1" +:+ "}".
Definition answering : Network :=
  fun _ => Resolved (mkIncoming 200 [("content-type", "application/json")] (Ok msg_1)).

(** An upstream that rejects the credential and quotes it back. *)
Definition echoing : Network :=
  fun call =>
    Resolved (mkIncoming 401 []
                (Ok ("invalid x-api-key: " +:+
                     default "" (property "x-api-key" (ri_headers (init call)))))).

(** A target that sets its own preflight lifetime and a frame policy. *)
Definition framed : Network :=
  fun _ =>
    Resolved (mkIncoming 200
                [ ("Content-Type", "text/html");
                  ("X-Frame-Options", "DENY");
                  ("Access-Control-Max-Age", "5") ]
                (Ok "<p>hello</p>")).

End Samples.

Module CacheSamples.
Import Js ServiceWorker.

Definition here : URL := mkURL "https:" "athere.example" "" "/sw.js" "".

Definition page (path : string) : Request :=
  mkRequest "GET" (mkURL "https:" "athere.example" "" path "").

Definition shell : Response :=
  mkResponse 200 (Headers.of_entries [("Content-Type", "text/html")]) (BText "<!doctype html>").

Definition icon : Response :=
  mkResponse 200 (Headers.of_entries [("Content-Type", "image/png")]) (BBuffer "PNG").

(** The network is up and serves the icon; the network is down. *)
Definition up : World := mkWorld here (fun _ => Ok icon).
Definition down : World :=
  mkWorld here (fun _ => Throw (mkError "TypeError" "Failed to fetch")).

(** Nothing cached yet; the root document cached by [install]. *)
Definition fresh : State := mkState [] [] [].
Definition installed : State :=
  mkState [(CACHE, {[ resolve here "/" := shell ]})] [] [].

End CacheSamples.

(** ** More vocabulary: header sets, texts, decoding *)

Module Text.

(** Every byte of [s] satisfies [p]. *)
Fixpoint every (p : ascii -> bool) (s : string) : bool :=
  match s with
  | EmptyString => true
  | String c s' => p c && every p s'
  end.

(** Not one of the control characters below the space. *)
Definition above_controls (c : ascii) : bool := (32 <=? Str.code c)%N.


Definition prepend (c : ascii) (o : option string) : option string :=
  match o with
  | Some s => Some (String c s)
  | None => None
  end.

(** Reading back what [JSON.escape_all] writes: the seven short escapes
    and [\u00xx]; any other escape is refused. *)
Fixpoint unescape_all (s : string) : option string :=
  match s with
  | EmptyString => Some EmptyString
  | String c s1 =>
      if Ascii.eqb c Str.backslash then
        match s1 with
        | EmptyString => None
        | String x s2 =>
            if Ascii.eqb x "b" then prepend "008" (unescape_all s2)
            else if Ascii.eqb x "t" then prepend "009" (unescape_all s2)
            else if Ascii.eqb x "n" then prepend "010" (unescape_all s2)
            else if Ascii.eqb x "f" then prepend "012" (unescape_all s2)
            else if Ascii.eqb x "r" then prepend "013" (unescape_all s2)
            else if Ascii.eqb x Str.dquote then prepend Str.dquote (unescape_all s2)
            else if Ascii.eqb x Str.backslash then prepend Str.backslash (unescape_all s2)
            else if Ascii.eqb x "u" then
              match s2 with
              | String "0" (String "0" (String h (String l s3))) =>
                  match Str.hex_value h, Str.hex_value l with
                  | Some a, Some b => prepend (ascii_of_N (16 * a + b)) (unescape_all s3)
                  | _, _ => None
                  end
              | _ => None
              end
            else None
        end
      else prepend c (unescape_all s1)
  end.

End Text.

Module HeaderSets.

(** The lower-cased names of the CORS headers [corsResponse] sets. *)
Definition cors_names : list string :=
  map (fun kv => Str.lower kv.1) Worker.CORS_HEADERS.

(** The three of them the Pages functions do not set on their answers. *)
Definition worker_only : list string :=
  [ "access-control-allow-methods";
    "access-control-allow-headers";
    "access-control-max-age" ].

End HeaderSets.

Module UpgradeSamples.
Import Js ServiceWorker.

(** A bucket left by the previous version next to the current one. *)
Definition two_versions : State :=
  mkState [ ("athere-v19", {[ url (CacheSamples.page "/old.css") := CacheSamples.icon ]});
            (CACHE, {[ resolve CacheSamples.here "/" := CacheSamples.shell ]}) ]
    [] [].

(** A server that has no such page. *)
Definition not_found : Response := mkResponse 404 ∅ (BText "Not found").
Definition missing_pages : World := mkWorld CacheSamples.here (fun _ => Ok not_found).

(** A server that serves the application shell. *)
Definition serving : World := mkWorld CacheSamples.here (fun _ => Ok CacheSamples.shell).

End UpgradeSamples.

(** * Properties *)

(** ** The runtime *)

Module JsFacts.
Import Js.

Lemma truthy_Some (v : option string) (s : string) :
  v = Some s -> s <> "" -> truthy v = true.
Proof.
  intros -> Hs. unfold truthy.
  destruct (String.eqb_spec s ""); [contradiction | reflexivity].
Qed.

Lemma truthy_inv (v : option string) :
  truthy v = true -> exists s, v = Some s /\ s <> "".
Proof.
  destruct v as [s|]; simpl; [|discriminate].
  destruct (String.eqb_spec s ""); [discriminate|]. eauto.
Qed.

Lemma falsy_inv (v : option string) :
  truthy v = false -> v = None \/ v = Some "".
Proof.
  destruct v as [s|]; simpl; [|auto].
  destruct (String.eqb_spec s ""); [subst; auto | discriminate].
Qed.

(** [set] after [set], [get] after [delete]: the map laws, through the
    lower-casing of the names. *)
Lemma get_set_same (n n' v : string) (h : gmap string string) :
  Str.lower n = Str.lower n' -> Headers.get n' (Headers.set n v h) = Some v.
Proof.
  intros E. unfold Headers.get, Headers.set. rewrite E. apply lookup_insert_eq.
Qed.

Lemma get_set_other (n n' v : string) (h : gmap string string) :
  Str.lower n <> Str.lower n' -> Headers.get n' (Headers.set n v h) = Headers.get n' h.
Proof.
  intros E. unfold Headers.get, Headers.set. by apply lookup_insert_ne.
Qed.

Lemma get_delete_same (n n' : string) (h : gmap string string) :
  Str.lower n = Str.lower n' -> Headers.get n' (Headers.delete n h) = None.
Proof.
  intros E. unfold Headers.get, Headers.delete. rewrite E. apply lookup_delete_eq.
Qed.

Lemma get_delete_other (n n' : string) (h : gmap string string) :
  Str.lower n <> Str.lower n' -> Headers.get n' (Headers.delete n h) = Headers.get n' h.
Proof.
  intros E. unfold Headers.get, Headers.delete. by apply lookup_delete_ne.
Qed.

End JsFacts.

Module ResponseFacts.
Import Js.

Lemma in_range (s : Z) :
  200 <= s <= 599 -> negb ((200 <=? s) && (s <=? 599)) = false.
Proof.
  intros Hs. apply negb_false_iff, andb_true_iff. lia.
Qed.

Lemma out_of_range (s : Z) :
  ~ (200 <= s <= 599) -> negb ((200 <=? s) && (s <=? 599)) = true.
Proof.
  intros Hs. apply negb_true_iff, andb_false_iff. lia.
Qed.

(** An ArrayBuffer is relayed as it is; an empty one with a null body
    status becomes the null body. *)
Lemma Response_new_buffer (bytes : string) (s : Z) (h : gmap string string) :
  200 <= s <= 599 ->
  (null_body_status s = true -> bytes = "") ->
  Response_new (BBuffer bytes) (mkInit (Some s) (Some (FromHeaders h)))
  = Ok (mkResponse s h (if null_body_status s then BNull else BBuffer bytes)).
Proof.
  intros Hs Hn. unfold Response_new. simpl. rewrite (in_range s Hs).
  destruct (null_body_status s); simpl.
  - rewrite (Hn eq_refl). reflexivity.
  - reflexivity.
Qed.

(** The same for a string when the headers already say what it is. *)
Lemma Response_new_text (t : string) (s : Z) (hi : HeadersInit) :
  200 <= s <= 599 ->
  (null_body_status s = true -> t = "") ->
  Headers.has "Content-Type" (Headers_new hi) = true ->
  Response_new (BText t) (mkInit (Some s) (Some hi))
  = Ok (mkResponse s (Headers_new hi) (if null_body_status s then BNull else BText t)).
Proof.
  intros Hs Hn Hct. unfold Response_new. simpl. rewrite (in_range s Hs).
  destruct (null_body_status s); simpl.
  - rewrite (Hn eq_refl). reflexivity.
  - rewrite Hct. reflexivity.
Qed.

(** Outside 200..599 the constructor throws, whatever the body. *)
Lemma Response_new_range (b : Body) (s : Z) (hi : option HeadersInit) :
  ~ (200 <= s <= 599) ->
  Response_new b (mkInit (Some s) hi) = Throw status_range_error.
Proof.
  intros Hs. unfold Response_new. simpl. rewrite (out_of_range s Hs). reflexivity.
Qed.

(** What reading a body gives is empty when the status forbids a body. *)
Lemma read_body_null (r : Net.Incoming) (t : string) :
  Net.read_body r = Ok t -> null_body_status (Net.in_status r) = true -> t = "".
Proof.
  unfold Net.read_body. intros H Hn. rewrite Hn in H. congruence.
Qed.

End ResponseFacts.

Module CallsFacts.
Import Js Net Calls.



Lemma received_ok (reply : FetchReply) (r : Incoming) (t : string) :
  reply = Resolved r -> read_body r = Ok t -> received reply = Ok (r, t).
Proof. intros -> H. simpl. rewrite H. reflexivity. Qed.

End CallsFacts.

(** ** worker.js, branch by branch *)

Module WorkerFacts.
Import Js Net Edge Calls CallsFacts ResponseFacts WorkerAnswers.

Lemma json_cors_typed : Headers.has "Content-Type" json_cors = true.
Proof. reflexivity. Qed.

Lemma cors_bad_gateway (err : Error) :
  Worker.corsResponse (BText (JSON.stringify [("error", message err)]))
    (mkInit (Some 502) Worker.json_headers) = Ok (bad_gateway err).
Proof.
  unfold Worker.corsResponse. cbn [init_status init_headers].
  change (fold_left _ Worker.CORS_HEADERS _) with json_cors.
  rewrite (Response_new_text _ 502 (FromHeaders json_cors)); [reflexivity | lia | discriminate | exact json_cors_typed].
Qed.

Lemma claude_run (net : Network) (request : Request) (env : Env) (key payload : string) :
  ANTHROPIC_API_KEY env = Some key -> key <> "" ->
  body request = Ok payload ->
  run net (Worker.claude request env)
  = (claude_answer (received (net (upstream_call key payload))),
     [upstream_call key payload]).
Proof.
  intros Hk Hne Hb. unfold Worker.claude.
  rewrite (JsFacts.truthy_Some _ _ Hk Hne), Hk. cbn [negb default from_option id].
  unfold run, Eff.try_catch, Eff.bind, text, lift, Eff.lift, Net.fetch.
  rewrite Hb. cbn [app].
  change (mkCall _ _) with (upstream_call key payload).
  unfold claude_answer, received.
  destruct (net (upstream_call key payload)) as [e|r]; cbv beta iota zeta.
  - rewrite cors_bad_gateway. reflexivity.
  - destruct (read_body r) as [t|e]; cbv beta iota zeta.
    + destruct (Worker.corsResponse _ _); [reflexivity|].
      rewrite cors_bad_gateway. reflexivity.
    + rewrite cors_bad_gateway. reflexivity.
Qed.

Lemma claude_run_unread (net : Network) (request : Request) (env : Env) (key : string) (e : Error) :
  ANTHROPIC_API_KEY env = Some key -> key <> "" ->
  body request = Throw e ->
  run net (Worker.claude request env) = (Ok (bad_gateway e), []).
Proof.
  intros Hk Hne Hb. unfold Worker.claude.
  rewrite (JsFacts.truthy_Some _ _ Hk Hne), Hk. cbn [negb default from_option id].
  unfold run, Eff.try_catch, Eff.bind, lift, Eff.lift.
  rewrite Hb. rewrite cors_bad_gateway. reflexivity.
Qed.

Lemma claude_run_unconfigured (net : Network) (request : Request) (env : Env) :
  truthy (ANTHROPIC_API_KEY env) = false ->
  run net (Worker.claude request env) = (Ok not_configured, []).
Proof.
  intros Hk. unfold Worker.claude. rewrite Hk. cbn [negb].
  unfold run, lift, Eff.lift, Worker.corsResponse. cbn [init_status init_headers].
  change (fold_left _ Worker.CORS_HEADERS _) with json_cors.
  rewrite (Response_new_text _ 500 (FromHeaders json_cors));
    [reflexivity | lia | discriminate | exact json_cors_typed].
Qed.

(** A relayable upstream answer is relayed. *)
Lemma claude_answer_relays (r : Incoming) (t : string) :
  200 <= in_status r <= 599 ->
  read_body r = Ok t ->
  claude_answer (Ok (r, t))
  = Ok (mkResponse (in_status r) json_cors
          (if null_body_status (in_status r) then BNull else BText t)).
Proof.
  intros Hs Ht. unfold claude_answer, Worker.corsResponse.
  cbn [init_status init_headers].
  change (fold_left _ Worker.CORS_HEADERS _) with json_cors.
  rewrite (Response_new_text t (in_status r) (FromHeaders json_cors));
    [reflexivity | exact Hs | | exact json_cors_typed].
  intros Hn. exact (read_body_null r t Ht Hn).
Qed.


(** The [/proxy] branch. *)

Lemma plain_cors_response (t : string) (s : Z) :
  200 <= s <= 599 -> null_body_status s = false ->
  Worker.corsResponse (BText t) (mkInit (Some s) None)
  = Ok (mkResponse s plain_cors (BText t)).
Proof.
  intros Hs Hn. unfold Worker.corsResponse, Response_new. simpl.
  rewrite (in_range s Hs), Hn. reflexivity.
Qed.

Lemma proxy_error_response (err : Error) :
  proxy_error err
  = Ok (mkResponse 502 plain_cors (BText ("Proxy error: " +:+ message err))).
Proof. unfold proxy_error. apply plain_cors_response; [lia | reflexivity]. Qed.

Lemma proxy_run (net : Network) (request : Request) (t : string) :
  URLSearchParams.get "url" (searchParams (url request)) = Some t -> t <> "" ->
  run net (Worker.proxy request)
  = (proxy_answer (received (net (target_call t))), [target_call t]).
Proof.
  intros Hu Hne. unfold Worker.proxy.
  rewrite (JsFacts.truthy_Some _ _ Hu Hne), Hu. cbn [negb default from_option id].
  unfold run, Eff.try_catch, Eff.bind, arrayBuffer, lift, Eff.lift, Net.fetch.
  cbn [app].
  change (mkCall _ _) with (target_call t).
  unfold proxy_answer, received.
  destruct (net (target_call t)) as [e|r]; cbv beta iota zeta.
  - reflexivity.
  - destruct (read_body r) as [bytes|e]; cbv beta iota zeta.
    + destruct (Worker.corsResponse _ _); reflexivity.
    + reflexivity.
Qed.

Lemma proxy_run_missing (net : Network) (request : Request) :
  truthy (URLSearchParams.get "url" (searchParams (url request))) = false ->
  run net (Worker.proxy request) = (Ok missing_url, []).
Proof.
  intros Hu. unfold Worker.proxy. rewrite Hu. cbn [negb].
  unfold run, lift, Eff.lift.
  rewrite (plain_cors_response _ 400); [reflexivity | lia | reflexivity].
Qed.

Lemma proxy_answer_relays (r : Incoming) (bytes : string) :
  200 <= in_status r <= 599 ->
  read_body r = Ok bytes ->
  proxy_answer (Ok (r, bytes))
  = Ok (mkResponse (in_status r)
          (with_cors
             (Headers.delete "X-Frame-Options"
                (Headers.delete "Content-Security-Policy"
                   (Headers.of_entries (in_headers r)))))
          (if null_body_status (in_status r) then BNull else BBuffer bytes)).
Proof.
  intros Hs Ht. unfold proxy_answer, Worker.corsResponse.
  cbn [init_status init_headers default from_option id Headers_new].
  rewrite Response_new_buffer; [reflexivity | exact Hs |].
  intros Hn. exact (read_body_null r bytes Ht Hn).
Qed.

(** Routing. *)

Lemma fetch_options (net : Network) (request : Request) (env : Env) :
  method request = "OPTIONS" ->
  run net (Worker.fetch request env) = (Ok preflight, []).
Proof.
  intros Hm. unfold Worker.fetch. rewrite Hm. reflexivity.
Qed.

Lemma fetch_claude (request : Request) (env : Env) :
  pathname (url request) = "/api/claude" -> method request = "POST" ->
  Worker.fetch request env = Worker.claude request env.
Proof.
  intros Hp Hm. unfold Worker.fetch. rewrite Hp, Hm. reflexivity.
Qed.

Lemma fetch_proxy (request : Request) (env : Env) :
  pathname (url request) = "/proxy" -> method request <> "OPTIONS" ->
  Worker.fetch request env = Worker.proxy request.
Proof.
  intros Hp Hm. unfold Worker.fetch. rewrite Hp.
  destruct (String.eqb_spec (method request) "OPTIONS"); [contradiction|].
  reflexivity.
Qed.

(** Any other request goes to the static assets, without a fetch. *)
Lemma fetch_static (net : Network) (request : Request) (env : Env) :
  method request <> "OPTIONS" ->
  ~ (pathname (url request) = "/api/claude" /\ method request = "POST") ->
  pathname (url request) <> "/proxy" ->
  snd (run net (Worker.fetch request env)) = [].
Proof.
  intros Hm Hc Hp. unfold Worker.fetch.
  destruct (String.eqb_spec (method request) "OPTIONS"); [contradiction|].
  destruct (String.eqb_spec (pathname (url request)) "/api/claude") as [E1|E1];
    destruct (String.eqb_spec (method request) "POST") as [E2|E2]; cbn [andb];
    try (exfalso; apply Hc; split; assumption);
    (destruct (String.eqb_spec (pathname (url request)) "/proxy"); [contradiction|]);
    destruct (ASSETS env); reflexivity.
Qed.

(** Which calls a run can contain. *)


Lemma proxy_calls (net : Network) (request : Request) (call : FetchCall) :
  In call (snd (run net (Worker.proxy request))) ->
  exists t,
    URLSearchParams.get "url" (searchParams (url request)) = Some t /\ t <> "" /\
    call = target_call t.
Proof.
  destruct (truthy (URLSearchParams.get "url" (searchParams (url request)))) eqn:Hu.
  - destruct (JsFacts.truthy_inv _ Hu) as (t & Ht & Hne).
    rewrite (proxy_run net _ t Ht Hne). cbn [snd In].
    intros [<-|[]]. eauto.
  - rewrite (proxy_run_missing net _ Hu). intros [].
Qed.

(** A run of the worker that made a call went through one of the two
    proxy branches. *)
Lemma fetch_calls (net : Network) (request : Request) (env : Env) (call : FetchCall) :
  In call (snd (run net (Worker.fetch request env))) ->
  (pathname (url request) = "/api/claude" /\ method request = "POST" /\
   Worker.fetch request env = Worker.claude request env) \/
  (pathname (url request) = "/proxy" /\ method request <> "OPTIONS" /\
   ~ (pathname (url request) = "/api/claude" /\ method request = "POST") /\
   Worker.fetch request env = Worker.proxy request).
Proof.
  intros Hin.
  destruct (String.eqb_spec (method request) "OPTIONS") as [Ho|Ho].
  { rewrite (fetch_options net _ _ Ho) in Hin. destruct Hin. }
  destruct (String.eqb_spec (pathname (url request)) "/api/claude") as [E1|E1];
    destruct (String.eqb_spec (method request) "POST") as [E2|E2].
  - left. auto using fetch_claude.
  - rewrite fetch_static in Hin; [destruct Hin | assumption | tauto |].
    rewrite E1. discriminate.
  - destruct (String.eqb_spec (pathname (url request)) "/proxy") as [E3|E3].
    + right. repeat split; auto using fetch_proxy. tauto.
    + rewrite fetch_static in Hin; [destruct Hin | assumption | tauto | assumption].
  - destruct (String.eqb_spec (pathname (url request)) "/proxy") as [E3|E3].
    + right. repeat split; auto using fetch_proxy. tauto.
    + rewrite fetch_static in Hin; [destruct Hin | assumption | tauto | assumption].
Qed.

(** An upstream status no response can be built with ends in the catch
    block, like any other exception of the try block. *)
Lemma claude_answer_bad_status (r : Incoming) (t : string) :
  ~ (200 <= in_status r <= 599) ->
  claude_answer (Ok (r, t)) = Ok (bad_gateway status_range_error).
Proof.
  intros Hs. unfold claude_answer, Worker.corsResponse. cbn [init_status init_headers].
  rewrite (Response_new_range _ _ _ Hs). reflexivity.
Qed.

Lemma proxy_answer_bad_status (r : Incoming) (bytes : string) :
  ~ (200 <= in_status r <= 599) ->
  proxy_answer (Ok (r, bytes)) = proxy_error status_range_error.
Proof.
  intros Hs. unfold proxy_answer, Worker.corsResponse. cbn [init_status init_headers].
  rewrite (Response_new_range _ _ _ Hs). reflexivity.
Qed.

(** Neither proxy branch ever throws: every path ends in a response. *)
Lemma claude_total (net : Network) (request : Request) (env : Env) :
  exists resp, fst (run net (Worker.claude request env)) = Ok resp.
Proof.
  destruct (truthy (ANTHROPIC_API_KEY env)) eqn:Hk.
  - destruct (JsFacts.truthy_inv _ Hk) as (key & Hkey & Hne).
    destruct (body request) as [payload|e] eqn:Hb.
    + rewrite (claude_run net _ _ key payload Hkey Hne Hb). cbn [fst].
      unfold claude_answer.
      destruct (received (net (upstream_call key payload))) as [[r t]|e]; [|eauto].
      destruct (Worker.corsResponse _ _); eauto.
    + rewrite (claude_run_unread net _ _ key e Hkey Hne Hb). eauto.
  - rewrite (claude_run_unconfigured net _ _ Hk). eauto.
Qed.

Lemma proxy_total (net : Network) (request : Request) :
  exists resp, fst (run net (Worker.proxy request)) = Ok resp.
Proof.
  destruct (truthy (URLSearchParams.get "url" (searchParams (url request)))) eqn:Hu.
  - destruct (JsFacts.truthy_inv _ Hu) as (t & Ht & Hne).
    rewrite (proxy_run net _ t Ht Hne). cbn [fst]. unfold proxy_answer.
    destruct (received (net (target_call t))) as [[r bytes]|e].
    + destruct (Worker.corsResponse _ _); [eauto|].
      rewrite proxy_error_response. eauto.
    + rewrite proxy_error_response. eauto.
  - rewrite (proxy_run_missing net _ Hu). eauto.
Qed.

End WorkerFacts.

(** ** functions/api/claude.js, case by case *)

Module ClaudeFunctionFacts.
Import Js Net Edge Calls CallsFacts ResponseFacts ClaudeAnswers.

Lemma claude_json_typed : Headers.has "Content-Type" json_cors = true.
Proof. reflexivity. Qed.

Lemma new_bad_gateway (err : Error) :
  Response_new (BText (JSON.stringify [("error", message err)]))
    (mkInit (Some 502) ClaudeFunction.json_cors_headers) = Ok (bad_gateway err).
Proof.
  unfold ClaudeFunction.json_cors_headers.
  rewrite Response_new_text; [reflexivity | lia | discriminate | exact claude_json_typed].
Qed.

Lemma run_unconfigured (net : Network) (context : Context) :
  truthy (ANTHROPIC_API_KEY (env context)) = false ->
  run net (ClaudeFunction.onRequestPost context) = (Ok not_configured, []).
Proof.
  intros Hk. unfold ClaudeFunction.onRequestPost. rewrite Hk. cbn [negb].
  unfold run, lift, Eff.lift, ClaudeFunction.json_cors_headers.
  rewrite Response_new_text; [reflexivity | lia | discriminate | exact claude_json_typed].
Qed.

Lemma run_post (net : Network) (context : Context) (key payload : string) :
  ANTHROPIC_API_KEY (env context) = Some key -> key <> "" ->
  body (request context) = Ok payload ->
  run net (ClaudeFunction.onRequestPost context)
  = (answer (received (net (upstream_call key payload))), [upstream_call key payload]).
Proof.
  intros Hk Hne Hb. unfold ClaudeFunction.onRequestPost.
  rewrite (JsFacts.truthy_Some _ _ Hk Hne), Hk. cbn [negb default from_option id].
  unfold run, Eff.try_catch, Eff.bind, text, lift, Eff.lift, Net.fetch.
  rewrite Hb. cbn [app].
  change (mkCall _ _) with (upstream_call key payload).
  unfold answer, received.
  destruct (net (upstream_call key payload)) as [e|r]; cbv beta iota zeta.
  - rewrite new_bad_gateway. reflexivity.
  - destruct (read_body r) as [t|e]; cbv beta iota zeta.
    + destruct (Response_new _ _); [reflexivity|].
      rewrite new_bad_gateway. reflexivity.
    + rewrite new_bad_gateway. reflexivity.
Qed.

Lemma run_unread (net : Network) (context : Context) (key : string) (e : Error) :
  ANTHROPIC_API_KEY (env context) = Some key -> key <> "" ->
  body (request context) = Throw e ->
  run net (ClaudeFunction.onRequestPost context) = (Ok (bad_gateway e), []).
Proof.
  intros Hk Hne Hb. unfold ClaudeFunction.onRequestPost.
  rewrite (JsFacts.truthy_Some _ _ Hk Hne), Hk. cbn [negb default from_option id].
  unfold run, Eff.try_catch, Eff.bind, lift, Eff.lift.
  rewrite Hb. rewrite new_bad_gateway. reflexivity.
Qed.

Lemma claude_fn_relays (r : Incoming) (t : string) :
  200 <= in_status r <= 599 ->
  read_body r = Ok t ->
  answer (Ok (r, t))
  = Ok (mkResponse (in_status r) json_cors
          (if null_body_status (in_status r) then BNull else BText t)).
Proof.
  intros Hs Ht. unfold answer, ClaudeFunction.json_cors_headers.
  rewrite Response_new_text; [reflexivity | exact Hs | | exact claude_json_typed].
  intros Hn. exact (read_body_null r t Ht Hn).
Qed.


Lemma claude_fn_options (net : Network) :
  run net ClaudeFunction.onRequestOptions = (Ok preflight, []).
Proof. reflexivity. Qed.


Lemma claude_fn_bad_status (r : Incoming) (t : string) :
  ~ (200 <= in_status r <= 599) ->
  answer (Ok (r, t)) = Ok (bad_gateway status_range_error).
Proof.
  intros Hs. unfold answer. rewrite (Response_new_range _ _ _ Hs). reflexivity.
Qed.

(** [onRequestPost] never throws. *)
Lemma post_total (net : Network) (context : Context) :
  exists resp, fst (run net (ClaudeFunction.onRequestPost context)) = Ok resp.
Proof.
  destruct (truthy (ANTHROPIC_API_KEY (env context))) eqn:Hk.
  - destruct (JsFacts.truthy_inv _ Hk) as (key & Hkey & Hne).
    destruct (body (request context)) as [payload|e] eqn:Hb.
    + rewrite (run_post net _ key payload Hkey Hne Hb). cbn [fst]. unfold answer.
      destruct (received (net (upstream_call key payload))) as [[r t]|e]; [|eauto].
      destruct (Response_new _ _); eauto.
    + rewrite (run_unread net _ key e Hkey Hne Hb). eauto.
  - rewrite (run_unconfigured net _ Hk). eauto.
Qed.

End ClaudeFunctionFacts.

(** ** functions/proxy.js, case by case *)

Module ProxyFunctionFacts.
Import Js Net Edge Calls CallsFacts ResponseFacts ProxyAnswers.

Lemma proxy_fn_plain_response (t : string) (s : Z) :
  200 <= s <= 599 -> null_body_status s = false ->
  Response_new (BText t) (mkInit (Some s) ProxyFunction.cors_only)
  = Ok (mkResponse s plain_cors (BText t)).
Proof.
  intros Hs Hn. unfold Response_new. simpl.
  rewrite (in_range s Hs), Hn. reflexivity.
Qed.

Lemma run_missing (net : Network) (context : Context) :
  truthy (URLSearchParams.get "url" (searchParams (url (request context)))) = false ->
  run net (ProxyFunction.onRequestGet context) = (Ok missing_url, []).
Proof.
  intros Hu. unfold ProxyFunction.onRequestGet. rewrite Hu. cbn [negb].
  unfold run, lift, Eff.lift.
  rewrite (proxy_fn_plain_response _ 400); [reflexivity | lia | reflexivity].
Qed.

Lemma run_get (net : Network) (context : Context) (t : string) :
  URLSearchParams.get "url" (searchParams (url (request context))) = Some t -> t <> "" ->
  run net (ProxyFunction.onRequestGet context)
  = (answer (received (net (target_call t))), [target_call t]).
Proof.
  intros Hu Hne. unfold ProxyFunction.onRequestGet.
  rewrite (JsFacts.truthy_Some _ _ Hu Hne), Hu. cbn [negb default from_option id].
  unfold run, Eff.try_catch, Eff.bind, arrayBuffer, lift, Eff.lift, Net.fetch.
  cbn [app].
  change (mkCall _ _) with (target_call t).
  unfold answer, received.
  destruct (net (target_call t)) as [e|r]; cbv beta iota zeta.
  - rewrite (proxy_fn_plain_response _ 502); [reflexivity | lia | reflexivity].
  - destruct (read_body r) as [bytes|e]; cbv beta iota zeta.
    + destruct (Response_new (BBuffer bytes) _); [reflexivity|].
      rewrite (proxy_fn_plain_response _ 502); [reflexivity | lia | reflexivity].
    + rewrite (proxy_fn_plain_response _ 502); [reflexivity | lia | reflexivity].
Qed.

Lemma proxy_fn_relays (r : Incoming) (bytes : string) :
  200 <= in_status r <= 599 ->
  read_body r = Ok bytes ->
  answer (Ok (r, bytes))
  = Ok (mkResponse (in_status r)
          (Headers.delete "X-Frame-Options"
             (Headers.delete "Content-Security-Policy"
                (Headers.set "Access-Control-Allow-Origin" "*"
                   (Headers.of_entries (in_headers r)))))
          (if null_body_status (in_status r) then BNull else BBuffer bytes)).
Proof.
  intros Hs Ht. unfold answer.
  cbn [Headers_new].
  rewrite Response_new_buffer; [reflexivity | exact Hs |].
  intros Hn. exact (read_body_null r bytes Ht Hn).
Qed.


Lemma proxy_fn_options (net : Network) :
  run net ProxyFunction.onRequestOptions = (Ok preflight, []).
Proof. reflexivity. Qed.

Lemma get_calls (net : Network) (context : Context) (call : FetchCall) :
  In call (snd (run net (ProxyFunction.onRequestGet context))) ->
  exists t,
    URLSearchParams.get "url" (searchParams (url (request context))) = Some t /\
    t <> "" /\ call = target_call t.
Proof.
  destruct (truthy (URLSearchParams.get "url" (searchParams (url (request context)))))
    eqn:Hu.
  - destruct (JsFacts.truthy_inv _ Hu) as (t & Ht & Hne).
    rewrite (run_get net _ t Ht Hne). cbn [snd In].
    intros [<-|[]]. eauto.
  - rewrite (run_missing net _ Hu). intros [].
Qed.

Lemma proxy_fn_bad_status (r : Incoming) (bytes : string) :
  ~ (200 <= in_status r <= 599) ->
  answer (Ok (r, bytes)) = Ok (proxy_error status_range_error).
Proof.
  intros Hs. unfold answer. rewrite (Response_new_range _ _ _ Hs). reflexivity.
Qed.

(** [onRequestGet] never throws. *)
Lemma get_total (net : Network) (context : Context) :
  exists resp, fst (run net (ProxyFunction.onRequestGet context)) = Ok resp.
Proof.
  destruct (truthy (URLSearchParams.get "url" (searchParams (url (request context)))))
    eqn:Hu.
  - destruct (JsFacts.truthy_inv _ Hu) as (t & Ht & Hne).
    rewrite (run_get net _ t Ht Hne). cbn [fst]. unfold answer.
    destruct (received (net (target_call t))) as [[r bytes]|e]; [|eauto].
    destruct (Response_new _ _); eauto.
  - rewrite (run_missing net _ Hu). eauto.
Qed.

End ProxyFunctionFacts.

(** ** The edge handlers against the specification *)

Section EdgeClaims.
Import Js Net Edge Calls CallsFacts.

(** C2 as stated fails on the combined worker: a preflight to
    [/api/claude] without a credential is answered 204, not 500. *)
Lemma unconfigured_preflight_gets_204 :
  exists resp,
    run Samples.offline (Worker.fetch Samples.options_claude Samples.unconfigured)
    = (Ok resp, []) /\
    status resp = 204 /\ status resp <> 500.
Proof.
  eexists. split; [reflexivity|]. split; [reflexivity | discriminate].
Qed.

(** C2 (amended): for every POST request to [/api/claude] when no
    credential is configured (the binding is absent or empty), the
    combined worker and the Pages function both answer with status 500
    and a JSON body that has an [error] field, and no outbound request is
    made. *)
Theorem unconfigured_post_gets_500 (net : Network) (context : Context) :
  pathname (url (request context)) = "/api/claude" ->
  method (request context) = "POST" ->
  truthy (ANTHROPIC_API_KEY (env context)) = false ->
  (exists resp msg,
      run net (Worker.fetch (request context) (env context)) = (Ok resp, []) /\
      status resp = 500 /\
      Js.body resp = BText (JSON.stringify [("error", msg)]) /\
      Headers.get "Content-Type" (headers resp) = Some "application/json") /\
  (exists resp msg,
      run net (ClaudeFunction.onRequestPost context) = (Ok resp, []) /\
      status resp = 500 /\
      Js.body resp = BText (JSON.stringify [("error", msg)]) /\
      Headers.get "Content-Type" (headers resp) = Some "application/json").
Proof.
  intros Hp Hm Hk. split.
  - rewrite (WorkerFacts.fetch_claude _ _ Hp Hm).
    rewrite (WorkerFacts.claude_run_unconfigured net _ _ Hk).
    do 2 eexists. repeat split; reflexivity.
  - rewrite (ClaudeFunctionFacts.run_unconfigured net _ Hk).
    do 2 eexists. repeat split; reflexivity.
Qed.

Lemma unconfigured_post_gets_500_witness :
  (exists resp msg,
      run Samples.offline (Worker.fetch Samples.post_claude Samples.unconfigured)
      = (Ok resp, []) /\
      status resp = 500 /\
      Js.body resp = BText (JSON.stringify [("error", msg)]) /\
      Headers.get "Content-Type" (headers resp) = Some "application/json") /\
  (exists resp msg,
      run Samples.offline
        (ClaudeFunction.onRequestPost (mkContext Samples.post_claude Samples.unconfigured))
      = (Ok resp, []) /\
      status resp = 500 /\
      Js.body resp = BText (JSON.stringify [("error", msg)]) /\
      Headers.get "Content-Type" (headers resp) = Some "application/json").
Proof.
  apply (unconfigured_post_gets_500 Samples.offline
           (mkContext Samples.post_claude Samples.unconfigured)); reflexivity.
Defined.

(** C6: for every GET request to [/proxy] whose query string has no
    [url] parameter, the combined worker and the Pages function both
    answer with status 400 and make no outbound fetch. *)
Theorem missing_url_gets_400 (net : Network) (context : Context) :
  pathname (url (request context)) = "/proxy" ->
  method (request context) = "GET" ->
  URLSearchParams.get "url" (searchParams (url (request context))) = None ->
  (exists resp,
      run net (Worker.fetch (request context) (env context)) = (Ok resp, []) /\
      status resp = 400) /\
  (exists resp,
      run net (ProxyFunction.onRequestGet context) = (Ok resp, []) /\
      status resp = 400).
Proof.
  intros Hp Hm Hu.
  assert (Hf : truthy (URLSearchParams.get "url" (searchParams (url (request context)))) = false)
    by (rewrite Hu; reflexivity).
  split.
  - rewrite (WorkerFacts.fetch_proxy _ _ Hp) by (rewrite Hm; discriminate).
    rewrite (WorkerFacts.proxy_run_missing net _ Hf). eexists. split; reflexivity.
  - rewrite (ProxyFunctionFacts.run_missing net _ Hf). eexists. split; reflexivity.
Qed.

Lemma missing_url_gets_400_witness :
  (exists resp,
      run Samples.answering (Worker.fetch (Samples.get_proxy "ref=home") Samples.configured)
      = (Ok resp, []) /\
      status resp = 400) /\
  (exists resp,
      run Samples.answering
        (ProxyFunction.onRequestGet (mkContext (Samples.get_proxy "ref=home") Samples.configured))
      = (Ok resp, []) /\
      status resp = 400).
Proof.
  apply (missing_url_gets_400 Samples.answering
           (mkContext (Samples.get_proxy "ref=home") Samples.configured)); reflexivity.
Defined.

(** C10: for every GET request to [/proxy] whose [url] parameter is
    present but empty, as in [/proxy?url=], the handlers answer exactly
    as for a missing parameter: status 400 and no outbound fetch, with
    the very response and call log that a request without the parameter
    gets. *)
Theorem empty_url_gets_400 (net : Network) (context missing : Context) :
  pathname (url (request context)) = "/proxy" ->
  method (request context) = "GET" ->
  URLSearchParams.get "url" (searchParams (url (request context))) = Some "" ->
  pathname (url (request missing)) = "/proxy" ->
  method (request missing) = "GET" ->
  URLSearchParams.get "url" (searchParams (url (request missing))) = None ->
  (exists resp,
      run net (Worker.fetch (request context) (env context)) = (Ok resp, []) /\
      status resp = 400 /\
      run net (Worker.fetch (request missing) (env missing)) = (Ok resp, [])) /\
  (exists resp,
      run net (ProxyFunction.onRequestGet context) = (Ok resp, []) /\
      status resp = 400 /\
      run net (ProxyFunction.onRequestGet missing) = (Ok resp, [])).
Proof.
  intros Hp Hm Hu Hp' Hm' Hu'.
  assert (Hf : truthy (URLSearchParams.get "url" (searchParams (url (request context)))) = false)
    by (rewrite Hu; reflexivity).
  assert (Hf' : truthy (URLSearchParams.get "url" (searchParams (url (request missing)))) = false)
    by (rewrite Hu'; reflexivity).
  split.
  - rewrite (WorkerFacts.fetch_proxy _ _ Hp) by (rewrite Hm; discriminate).
    rewrite (WorkerFacts.fetch_proxy _ _ Hp') by (rewrite Hm'; discriminate).
    rewrite (WorkerFacts.proxy_run_missing net _ Hf).
    rewrite (WorkerFacts.proxy_run_missing net _ Hf').
    eexists. repeat split; reflexivity.
  - rewrite (ProxyFunctionFacts.run_missing net _ Hf).
    rewrite (ProxyFunctionFacts.run_missing net _ Hf').
    eexists. repeat split; reflexivity.
Qed.

(** [/proxy?url=] next to [/proxy?ref=home]. *)
Lemma empty_url_gets_400_witness :
  (exists resp,
      run Samples.answering (Worker.fetch (Samples.get_proxy "url=") Samples.configured)
      = (Ok resp, []) /\
      status resp = 400 /\
      run Samples.answering (Worker.fetch (Samples.get_proxy "ref=home") Samples.configured)
      = (Ok resp, [])) /\
  (exists resp,
      run Samples.answering
        (ProxyFunction.onRequestGet (mkContext (Samples.get_proxy "url=") Samples.configured))
      = (Ok resp, []) /\
      status resp = 400 /\
      run Samples.answering
        (ProxyFunction.onRequestGet
           (mkContext (Samples.get_proxy "ref=home") Samples.configured))
      = (Ok resp, [])).
Proof.
  apply (empty_url_gets_400 Samples.answering
           (mkContext (Samples.get_proxy "url=") Samples.configured)
           (mkContext (Samples.get_proxy "ref=home") Samples.configured)); reflexivity.
Defined.

(** C7 as stated fails on the combined worker: its preflight answer to
    [/proxy] advertises [GET, POST, OPTIONS]. *)
Lemma worker_preflight_advertises_post :
  exists resp,
    run Samples.offline (Worker.fetch Samples.options_proxy Samples.configured)
    = (Ok resp, []) /\
    Headers.get "Access-Control-Allow-Methods" (headers resp) = Some "GET, POST, OPTIONS" /\
    Headers.get "Access-Control-Allow-Methods" (headers resp) <> Some "GET, OPTIONS".
Proof.
  eexists. split; [reflexivity|]. split; [reflexivity | discriminate].
Qed.

(** C7 (amended): every OPTIONS request, to either endpoint, is answered
    with status 204 and no body, without an outbound fetch.  The
    [/proxy] Pages function advertises exactly [GET, OPTIONS], the
    [/api/claude] Pages function exactly [POST, OPTIONS], and the combined
    worker [GET, POST, OPTIONS] on every path. *)
Theorem preflight_gets_204 (net : Network) (request : Request) (env : Env) :
  method request = "OPTIONS" ->
  (exists resp,
      run net (Worker.fetch request env) = (Ok resp, []) /\
      status resp = 204 /\ Js.body resp = BNull /\
      Headers.get "Access-Control-Allow-Methods" (headers resp)
      = Some "GET, POST, OPTIONS") /\
  (exists resp,
      run net ProxyFunction.onRequestOptions = (Ok resp, []) /\
      status resp = 204 /\ Js.body resp = BNull /\
      Headers.get "Access-Control-Allow-Methods" (headers resp) = Some "GET, OPTIONS") /\
  (exists resp,
      run net ClaudeFunction.onRequestOptions = (Ok resp, []) /\
      status resp = 204 /\ Js.body resp = BNull /\
      Headers.get "Access-Control-Allow-Methods" (headers resp) = Some "POST, OPTIONS").
Proof.
  intros Hm. repeat split.
  - rewrite (WorkerFacts.fetch_options net _ _ Hm).
    eexists. repeat split; reflexivity.
  - rewrite ProxyFunctionFacts.proxy_fn_options. eexists. repeat split; reflexivity.
  - rewrite ClaudeFunctionFacts.claude_fn_options. eexists. repeat split; reflexivity.
Qed.

Lemma preflight_gets_204_witness :
  exists resp,
    run Samples.offline (Worker.fetch Samples.options_proxy Samples.configured)
    = (Ok resp, []) /\
    status resp = 204 /\ Js.body resp = BNull /\
    Headers.get "Access-Control-Allow-Methods" (headers resp) = Some "GET, POST, OPTIONS".
Proof.
  apply (preflight_gets_204 Samples.offline Samples.options_proxy Samples.configured).
  reflexivity.
Defined.








(** C3 as stated fails on the combined worker: [corsResponse] sets all
    four CORS headers, so a target's own [Access-Control-Max-Age] (and
    its allowed methods and headers) is replaced, not relayed. *)
Lemma worker_replaces_target_cors_headers :
  exists resp,
    run Samples.framed
      (Worker.fetch (Samples.get_proxy "url=https%3A%2F%2Fexample.com%2Fa") Samples.configured)
    = (Ok resp, [target_call "https://example.com/a"]) /\
    status resp = 200 /\
    Headers.get "Access-Control-Max-Age"
      (relayed_headers [ ("Content-Type", "text/html");
                         ("X-Frame-Options", "DENY");
                         ("Access-Control-Max-Age", "5") ]) = Some "5" /\
    Headers.get "Access-Control-Max-Age" (headers resp) = Some "86400" /\
    headers resp <> relayed_headers [ ("Content-Type", "text/html");
                                      ("X-Frame-Options", "DENY");
                                      ("Access-Control-Max-Age", "5") ].
Proof.
  eexists. split; [vm_compute; reflexivity|].
  split; [reflexivity|]. split; [vm_compute; reflexivity|].
  split; [vm_compute; reflexivity|].
  intros H. apply (f_equal (Headers.get "Access-Control-Max-Age")) in H.
  vm_compute in H. discriminate.
Qed.

(** C3 (amended): for every [/proxy] request whose fetch of the target
    succeeds with an HTTP status (200 to 599), the response carries the
    target's status and content.  From the Pages function its headers are
    the target's with [Content-Security-Policy] and [X-Frame-Options]
    removed and [Access-Control-Allow-Origin: *] set.  From the combined
    worker they are the target's with the two security headers removed and
    all four CORS headers of the worker set, so that the target's own
    [Access-Control-*] values for these four are replaced; every other
    header is the target's. *)
Theorem target_answer_relayed
  (net : Network) (context : Context) (t : string) (r : Incoming) (bytes : string) :
  pathname (url (request context)) = "/proxy" ->
  method (request context) = "GET" ->
  URLSearchParams.get "url" (searchParams (url (request context))) = Some t -> t <> "" ->
  net (target_call t) = Resolved r ->
  read_body r = Ok bytes ->
  200 <= in_status r <= 599 ->
  (exists resp,
      run net (ProxyFunction.onRequestGet context) = (Ok resp, [target_call t]) /\
      status resp = in_status r /\
      body_bytes (Js.body resp) = bytes /\
      headers resp = relayed_headers (in_headers r)) /\
  (exists resp,
      run net (Worker.fetch (request context) (env context)) = (Ok resp, [target_call t]) /\
      status resp = in_status r /\
      body_bytes (Js.body resp) = bytes /\
      headers resp
      = Headers.set "Access-Control-Max-Age" "86400"
          (Headers.set "Access-Control-Allow-Headers" "Content-Type, Authorization"
             (Headers.set "Access-Control-Allow-Methods" "GET, POST, OPTIONS"
                (relayed_headers (in_headers r)))) /\
      Headers.get "Content-Security-Policy" (headers resp) = None /\
      Headers.get "X-Frame-Options" (headers resp) = None /\
      Headers.get "Access-Control-Allow-Origin" (headers resp) = Some "*").
Proof.
  intros Hp Hm Hu Hne Hnet Hread Hs.
  assert (Hbytes :
    body_bytes (if null_body_status (in_status r) then BNull else BBuffer bytes) = bytes).
  { destruct (null_body_status (in_status r)) eqn:Hn; [|reflexivity].
    symmetry. exact (ResponseFacts.read_body_null r bytes Hread Hn). }
  split.
  - rewrite (ProxyFunctionFacts.run_get net _ t Hu Hne).
    rewrite (received_ok _ r bytes Hnet Hread).
    rewrite (ProxyFunctionFacts.proxy_fn_relays r bytes Hs Hread).
    eexists. split; [reflexivity|]. split; [reflexivity|]. split; [exact Hbytes|].
    cbn [headers]. unfold relayed_headers, Headers.delete, Headers.set.
    rewrite !delete_insert_ne by (vm_compute; discriminate). reflexivity.
  - rewrite (WorkerFacts.fetch_proxy _ _ Hp) by (rewrite Hm; discriminate).
    rewrite (WorkerFacts.proxy_run net _ t Hu Hne).
    rewrite (received_ok _ r bytes Hnet Hread).
    rewrite (WorkerFacts.proxy_answer_relays r bytes Hs Hread).
    eexists. split; [reflexivity|]. split; [reflexivity|]. split; [exact Hbytes|].
    cbn [headers]. split; [reflexivity|].
    unfold WorkerAnswers.with_cors, Worker.CORS_HEADERS. cbn [fold_left fst snd].
    repeat split.
    + rewrite !JsFacts.get_set_other by (vm_compute; discriminate).
      rewrite JsFacts.get_delete_other by (vm_compute; discriminate).
      apply JsFacts.get_delete_same. reflexivity.
    + rewrite !JsFacts.get_set_other by (vm_compute; discriminate).
      apply JsFacts.get_delete_same. reflexivity.
    + rewrite !JsFacts.get_set_other by (vm_compute; discriminate).
      apply JsFacts.get_set_same. reflexivity.
Qed.

Lemma target_answer_relayed_witness :
  let received := [ ("Content-Type", "text/html");
                    ("X-Frame-Options", "DENY");
                    ("Access-Control-Max-Age", "5") ] in
  let context := mkContext (Samples.get_proxy "url=https%3A%2F%2Fexample.com%2Fa")
                   Samples.configured in
  exists resp,
    run Samples.framed (ProxyFunction.onRequestGet context)
    = (Ok resp, [target_call "https://example.com/a"]) /\
    status resp = 200 /\
    body_bytes (Js.body resp) = "<p>hello</p>" /\
    headers resp = relayed_headers received.
Proof.
  apply (target_answer_relayed Samples.framed
           (mkContext (Samples.get_proxy "url=https%3A%2F%2Fexample.com%2Fa")
              Samples.configured)
           "https://example.com/a"
           (mkIncoming 200
              [ ("Content-Type", "text/html");
                ("X-Frame-Options", "DENY");
                ("Access-Control-Max-Age", "5") ]
              (Ok "<p>hello</p>"))
           "<p>hello</p>").
  - reflexivity.
  - reflexivity.
  - vm_compute. reflexivity.
  - discriminate.
  - reflexivity.
  - reflexivity.
  - simpl. lia.
Defined.

End EdgeClaims.

(** ** sw.js, case by case *)

Module ServiceWorkerFacts.
Import Js ServiceWorker CacheSteps.

Lemma bypassed_false (loc : URL) (rq : Request) :
  bypassed loc rq = false ->
  Str.startsWith "/api/" (pathname (url rq)) = false /\
  pathname (url rq) <> "/proxy" /\
  hostname (url rq) = hostname loc /\
  method rq = "GET".
Proof.
  unfold bypassed. intros H.
  apply orb_false_iff in H as [H Hm].
  apply orb_false_iff in H as [H Hh].
  apply orb_false_iff in H as [Ha Hp].
  apply negb_false_iff in Hm, Hh.
  repeat split.
  - exact Ha.
  - intros E. rewrite E in Hp. discriminate.
  - destruct (String.eqb_spec (hostname (url rq)) (hostname loc)); [assumption | discriminate].
  - destruct (String.eqb_spec (method rq) "GET"); [assumption | discriminate].
Qed.

Lemma onfetch_bypassed (w : World) (s : State) (rq : Request) :
  bypassed (location w) rq = true -> onfetch rq w s = (Ok None, s).
Proof.
  intros H. unfold onfetch. rewrite H. reflexivity.
Qed.

Lemma onfetch_hit (w : World) (s : State) (rq : Request) (r : Response) :
  bypassed (location w) rq = false ->
  lookup_caches (url rq) (caches s) = Some r ->
  onfetch rq w s = (Ok (Some (Some r)), s).
Proof.
  intros Hb Hl. destruct (bypassed_false _ _ Hb) as (_ & _ & _ & Hm).
  unfold onfetch. rewrite Hb.
  unfold Eff.bind, caches_match. rewrite Hm. cbn [String.eqb Ascii.eqb Bool.eqb].
  rewrite Hl. reflexivity.
Qed.

Lemma onfetch_offline (w : World) (s : State) (rq : Request) (e : Error) :
  bypassed (location w) rq = false ->
  lookup_caches (url rq) (caches s) = None ->
  network w rq = Throw e ->
  onfetch rq w s = (Ok (Some (lookup_caches (root w) (caches s))), asked rq s).
Proof.
  intros Hb Hl Hn. destruct (bypassed_false _ _ Hb) as (_ & _ & _ & Hm).
  unfold onfetch. rewrite Hb.
  unfold Eff.bind, Eff.try_catch, caches_match, fetch, request_of.
  rewrite Hm. cbn [String.eqb Ascii.eqb Bool.eqb]. rewrite Hl, Hn.
  reflexivity.
Qed.

Lemma onfetch_miss (w : World) (s : State) (rq : Request) (res : Response) :
  bypassed (location w) rq = false ->
  lookup_caches (url rq) (caches s) = None ->
  network w rq = Ok res ->
  onfetch rq w s
  = (Ok (Some (Some res)),
     if storable w rq res then
       if uncacheable rq res then
         mkState (opened (caches s)) (requests s ++ [rq])%list (writes s)
       else
         mkState (store CACHE (url rq) res (opened (caches s)))
           (requests s ++ [rq])%list (writes s ++ [(CACHE, rq, res)])%list
     else asked rq s).
Proof.
  intros Hb Hl Hn. destruct (bypassed_false _ _ Hb) as (_ & _ & _ & Hm).
  unfold onfetch. rewrite Hb.
  unfold Eff.bind, Eff.try_catch, caches_match, fetch.
  rewrite Hm. cbn [String.eqb Ascii.eqb Bool.eqb]. rewrite Hl, Hn.
  unfold storable, clone.
  destruct (ok res && bool_decide (origin (url rq) = origin (location w))); [|reflexivity].
  unfold detached, Eff.try_catch, Eff.bind, caches_open, cache_put, opened.
  cbn [caches requests writes].
  destruct (has_cache CACHE (caches s)); cbn [caches requests writes];
    destruct (uncacheable rq res); reflexivity.
Qed.

(** A new, empty bucket changes no lookup. *)
Lemma lookup_caches_opened (u : URL) (cs : list (string * gmap URL Response)) :
  lookup_caches u (opened cs) = lookup_caches u cs.
Proof.
  unfold opened. destruct (has_cache CACHE cs); [reflexivity|].
  induction cs as [|[n c] cs IH]; simpl.
  - rewrite lookup_empty. reflexivity.
  - destruct (c !! u); [reflexivity | exact IH].
Qed.

(** The [install] listener: the root document is asked for, and stored
    when the answer is ok and cacheable. *)
Lemma oninstall_run (w : World) (s : State) :
  let rq := mkRequest "GET" (root w) in
  let s1 := mkState (opened (caches s)) (requests s ++ [rq])%list (writes s) in
  oninstall w s
  = (Ok tt,
     match network w rq with
     | Ok res =>
         if negb (ok res) || uncacheable rq res then s1
         else mkState (store CACHE (root w) res (opened (caches s)))
                (requests s ++ [rq])%list (writes s ++ [(CACHE, rq, res)])%list
     | Throw _ => s1
     end).
Proof.
  unfold oninstall, addAll, ASSETS, fetch_all, put_all.
  unfold Eff.try_catch, Eff.bind, Eff.ret, Eff.lift, caches_open, request_of, fetch, cache_put,
    opened, root.
  cbn [caches requests writes location].
  set (rq := mkRequest "GET" (resolve (location w) "/")).
  destruct (has_cache CACHE (caches s)); cbn [caches requests writes];
    (destruct (network w rq) as [res|e]; [|reflexivity]);
    destruct (ok res); cbn [negb orb]; try reflexivity;
    destruct (uncacheable rq res) eqn:Hu; cbn [caches requests writes];
    rewrite ?Hu; reflexivity.
Qed.

(** Where the entries of the buckets come from. *)

Lemma entry_store (nm : string) (u : URL) (r : Response)
  (cs : list (string * gmap URL Response)) (nm' : string) (u' : URL) (r' : Response) :
  entry (store nm u r cs) nm' u' r' ->
  entry cs nm' u' r' \/ (nm' = nm /\ u' = u /\ r' = r).
Proof.
  unfold entry. induction cs as [|[n c] cs IH]; simpl.
  - intros (c & [] & _).
  - destruct (String.eqb_spec n nm) as [->|Hn].
    + intros (c' & [Hc|Hc] & Hl).
      * injection Hc as <- <-.
        destruct (decide (u = u')) as [->|Hu].
        { rewrite lookup_insert_eq in Hl. injection Hl as <-. right. auto. }
        { rewrite lookup_insert_ne in Hl by assumption. left. exists c. auto. }
      * left. exists c'. auto.
    + intros (c' & [Hc|Hc] & Hl).
      * left. exists c'. auto.
      * destruct IH as [(c'' & Hin & Hl')|Hnew]; [exists c'; auto | | right; exact Hnew].
        left. exists c''. auto.
Qed.

Lemma entry_opened (cs : list (string * gmap URL Response))
  (nm : string) (u : URL) (r : Response) :
  entry (opened cs) nm u r -> entry cs nm u r.
Proof.
  unfold opened, entry. destruct (has_cache CACHE cs); [auto|].
  intros (c & Hin & Hl). apply in_app_or in Hin as [Hin|[Hc|[]]].
  - exists c. auto.
  - injection Hc as _ <-. rewrite lookup_empty in Hl. discriminate.
Qed.

Lemma entry_activated (w : World) (s : State) (nm : string) (u : URL) (r : Response) :
  entry (caches (snd (onactivate w s))) nm u r -> nm = CACHE /\ entry (caches s) nm u r.
Proof.
  unfold onactivate, entry. cbn [snd caches]. intros (c & Hin & Hl).
  apply list_elem_of_In, list_elem_of_filter in Hin as [Hn Hin].
  apply list_elem_of_In in Hin. split; [exact Hn | eauto].
Qed.

(** After a fetch event every entry was there before or is the
    network's answer to the request, stored under its URL in the current
    bucket after the test of the listener. *)
Lemma entry_fetched (w : World) (s : State) (rq : Request)
  (nm : string) (u : URL) (r : Response) :
  entry (caches (snd (onfetch rq w s))) nm u r ->
  entry (caches s) nm u r \/
  (nm = CACHE /\ u = url rq /\ network w rq = Ok r /\
   bypassed (location w) rq = false /\ storable w rq r = true).
Proof.
  destruct (bypassed (location w) rq) eqn:Hb.
  { rewrite (onfetch_bypassed _ _ _ Hb). auto. }
  destruct (lookup_caches (url rq) (caches s)) as [r0|] eqn:Hl.
  { rewrite (onfetch_hit _ _ _ r0 Hb Hl). auto. }
  destruct (network w rq) as [res|e] eqn:Hn.
  2:{ rewrite (onfetch_offline _ _ _ e Hb Hl Hn). auto. }
  rewrite (onfetch_miss _ _ _ res Hb Hl Hn). cbn [snd].
  destruct (storable w rq res) eqn:Hst; [|auto].
  destruct (uncacheable rq res); cbn [caches].
  - intros H. left. exact (entry_opened _ _ _ _ H).
  - intros H. apply entry_store in H as [H|(-> & -> & ->)].
    + left. exact (entry_opened _ _ _ _ H).
    + right. auto.
Qed.

(** After installation every entry was there before or is the ok answer
    of the network to the request for the root document. *)
Lemma entry_installed (w : World) (s : State) (nm : string) (u : URL) (r : Response) :
  entry (caches (snd (oninstall w s))) nm u r ->
  entry (caches s) nm u r \/
  (nm = CACHE /\ u = root w /\ network w (mkRequest "GET" (root w)) = Ok r /\ ok r = true).
Proof.
  rewrite oninstall_run. cbn [snd].
  destruct (network w _) as [res|e] eqn:Hn; cbn [caches].
  - destruct (negb (ok res) || uncacheable _ res) eqn:Hg; cbn [caches].
    + intros H. left. exact (entry_opened _ _ _ _ H).
    + apply orb_false_iff in Hg as [Hok _]. apply negb_false_iff in Hok.
      intros H. apply entry_store in H as [H|(-> & -> & ->)].
      * left. exact (entry_opened _ _ _ _ H).
      * right. auto.
  - intros H. left. exact (entry_opened _ _ _ _ H).
Qed.

(** Every same-origin GET outside the proxy paths is intercepted. *)
Lemma same_origin_get_intercepted (loc : URL) (rq : Request) :
  origin (url rq) = origin loc ->
  method rq = "GET" ->
  proxy_path rq = false ->
  bypassed loc rq = false.
Proof.
  unfold origin, proxy_path, bypassed. intros Ho Hm Hp.
  injection Ho as _ Hh _. rewrite Hp, Hh, Hm, String.eqb_refl. reflexivity.
Qed.

End ServiceWorkerFacts.

(** ** The service worker against the specification *)

Section CacheClaims.
Import Js ServiceWorker CacheSteps ServiceWorkerFacts.

(** C8: every cache write of the service worker, at install time and on
    an intercepted fetch, stores the ok network response to a same-origin
    GET request, and activation writes nothing; a fetch event for a
    non-GET, cross-origin or proxy-path request, or one whose network
    response is not ok, writes nothing and changes no cache lookup.  In
    terms of the buckets: an entry found after a fetch event or after
    installation was there before, or is such a response. *)
Theorem cache_writes_are_ok_same_origin_gets (w : World) (s : State) :
  (exists new,
      writes (snd (oninstall w s)) = (writes s ++ new)%list /\
      Forall (sound_write w) new) /\
  writes (snd (onactivate w s)) = writes s /\
  (forall rq, exists new,
      writes (snd (onfetch rq w s)) = (writes s ++ new)%list /\
      Forall (fun e => sound_write w e /\ e.1.2 = rq) new /\
      (method rq <> "GET" \/
       origin (url rq) <> origin (location w) \/
       proxy_path rq = true \/
       (forall res, network w rq = Ok res -> ok res = false) ->
       new = [] /\
       forall u, lookup_caches u (caches (snd (onfetch rq w s))) = lookup_caches u (caches s))) /\
  (forall rq nm u r,
      entry (caches (snd (onfetch rq w s))) nm u r ->
      entry (caches s) nm u r \/
      (ok r = true /\ origin u = origin (location w) /\ method rq = "GET" /\
       u = url rq /\ network w rq = Ok r)) /\
  (forall nm u r,
      entry (caches (snd (oninstall w s))) nm u r ->
      entry (caches s) nm u r \/
      (ok r = true /\ origin u = origin (location w) /\
       network w (mkRequest "GET" u) = Ok r)).
Proof.
  split; [|split; [|split; [|split]]].
  - rewrite oninstall_run. cbn [snd].
    destruct (network w _) as [res|e] eqn:Hn.
    + destruct (negb (ok res) || uncacheable _ res) eqn:Hg.
      * exists []. cbn [writes]. rewrite app_nil_r. split; [reflexivity | constructor].
      * apply orb_false_iff in Hg as [Hok _]. apply negb_false_iff in Hok.
        eexists. cbn [writes]. split; [reflexivity|].
        constructor; [|constructor]. repeat split; assumption.
    + exists []. cbn [writes]. rewrite app_nil_r. split; [reflexivity | constructor].
  - reflexivity.
  - intros rq.
    assert (Hnone : forall s',
               writes s' = writes s ->
               (forall u, lookup_caches u (caches s') = lookup_caches u (caches s)) ->
               snd (onfetch rq w s) = s' ->
               exists new,
                 writes (snd (onfetch rq w s)) = (writes s ++ new)%list /\
                 Forall (fun e => sound_write w e /\ e.1.2 = rq) new /\
                 (method rq <> "GET" \/
                  origin (url rq) <> origin (location w) \/
                  proxy_path rq = true \/
                  (forall res, network w rq = Ok res -> ok res = false) ->
                  new = [] /\
                  forall u, lookup_caches u (caches (snd (onfetch rq w s)))
                            = lookup_caches u (caches s))).
    { intros s' Hw Hc ->. exists []. rewrite app_nil_r.
      split; [exact Hw|]. split; [constructor|]. intros _. split; [reflexivity | exact Hc]. }
    destruct (bypassed (location w) rq) eqn:Hb.
    { apply (Hnone s); [reflexivity | reflexivity |].
      rewrite (onfetch_bypassed _ _ _ Hb). reflexivity. }
    destruct (lookup_caches (url rq) (caches s)) as [r|] eqn:Hl.
    { apply (Hnone s); [reflexivity | reflexivity |].
      rewrite (onfetch_hit _ _ _ r Hb Hl). reflexivity. }
    destruct (network w rq) as [res|e] eqn:Hn.
    2:{ apply (Hnone (asked rq s)); [reflexivity | reflexivity |].
        rewrite (onfetch_offline _ _ _ e Hb Hl Hn). reflexivity. }
    pose proof (onfetch_miss _ _ _ res Hb Hl Hn) as Hrun.
    destruct (storable w rq res) eqn:Hst.
    2:{ apply (Hnone (asked rq s)); [reflexivity | reflexivity |].
        rewrite Hrun. reflexivity. }
    destruct (uncacheable rq res) eqn:Hu.
    { apply (Hnone (mkState (opened (caches s)) (requests s ++ [rq])%list (writes s)));
        [reflexivity | | rewrite Hrun; reflexivity].
      intros u. apply lookup_caches_opened. }
    destruct (bypassed_false _ _ Hb) as (Hapi & Hproxy & _ & Hm).
    unfold storable in Hst. apply andb_true_iff in Hst as [Hok Ho].
    apply bool_decide_eq_true in Ho.
    exists [(CACHE, rq, res)]. rewrite Hrun. cbn [snd writes].
    split; [reflexivity|]. split.
    + constructor; [|constructor]. repeat split; assumption.
    + intros [H | [H | [H | H]]]; exfalso.
      * contradiction.
      * contradiction.
      * unfold proxy_path in H. rewrite Hapi in H. cbn [orb] in H.
        destruct (String.eqb_spec (pathname (url rq)) "/proxy"); [contradiction | discriminate].
      * rewrite (H res eq_refl) in Hok. discriminate.
  - intros rq nm u r H.
    destruct (entry_fetched w s rq nm u r H) as [Hold|(_ & -> & Hn & Hb & Hst)]; [auto|].
    right. destruct (bypassed_false _ _ Hb) as (_ & _ & _ & Hm).
    unfold storable in Hst. apply andb_true_iff in Hst as [Hok Ho].
    apply bool_decide_eq_true in Ho. auto.
  - intros nm u r H.
    destruct (entry_installed w s nm u r H) as [Hold|(_ & -> & Hn & Hok)]; [auto|].
    right. auto.
Qed.

(** A POST to the worker's own origin, with the network up: nothing is
    written. *)
Lemma cache_writes_are_ok_same_origin_gets_witness :
  writes (snd (onfetch (mkRequest "POST" (url (CacheSamples.page "/save")))
                 CacheSamples.up CacheSamples.installed)) = [].
Proof.
  destruct (proj1 (proj2 (proj2 (cache_writes_are_ok_same_origin_gets
                                  CacheSamples.up CacheSamples.installed)))
              (mkRequest "POST" (url (CacheSamples.page "/save"))))
    as (new & Hw & _ & Hno).
  destruct Hno as [Hnew _].
  - left. discriminate.
  - rewrite Hw, Hnew. reflexivity.
Defined.



End CacheClaims.

(** * Further properties of the code *)

(** ** [corsResponse] and the routing of worker.js *)

Module CorsFacts.
Import Js Net Edge Calls CallsFacts WorkerAnswers HeaderSets.

Lemma with_cors_sets (h : gmap string string) (k v : string) :
  In (k, v) Worker.CORS_HEADERS -> Headers.get k (with_cors h) = Some v.
Proof.
  unfold with_cors, Worker.CORS_HEADERS. cbn [fold_left fst snd In].
  intros [E|[E|[E|[E|[]]]]]; injection E as <- <-.
  - rewrite !JsFacts.get_set_other by (vm_compute; discriminate).
    apply JsFacts.get_set_same. reflexivity.
  - rewrite !JsFacts.get_set_other by (vm_compute; discriminate).
    apply JsFacts.get_set_same. reflexivity.
  - rewrite !JsFacts.get_set_other by (vm_compute; discriminate).
    apply JsFacts.get_set_same. reflexivity.
  - apply JsFacts.get_set_same. reflexivity.
Qed.

Lemma with_cors_keeps (h : gmap string string) (n : string) :
  ~ In (Str.lower n) cors_names -> Headers.get n (with_cors h) = Headers.get n h.
Proof.
  unfold cors_names, with_cors, Worker.CORS_HEADERS. cbn [map fold_left fst snd In].
  intros Hn. rewrite !JsFacts.get_set_other; [reflexivity | | | |];
    intros E; apply Hn; rewrite <- E; vm_compute; tauto.
Qed.

Lemma append_keeps (k v n : string) (h : gmap string string) :
  Str.lower n <> Str.lower k -> Headers.get n (Headers.append k v h) = Headers.get n h.
Proof.
  intros Hn. unfold Headers.append, Headers.get.
  destruct (h !! Str.lower k); apply lookup_insert_ne; congruence.
Qed.

End CorsFacts.

Section WorkerExtras.
Import Js Net Edge Calls CallsFacts HeaderSets.

(** X1: whenever [corsResponse] builds a response, it has the status and
    the content it was given, each of the four CORS headers has the
    worker's value whatever [init.headers] said, and every other header
    (the defaulted Content-Type apart) is the one of [init.headers]. *)
Theorem corsResponse_sets_cors_over_init (b : Body) (init : ResponseInit) (resp : Response) :
  Worker.corsResponse b init = Ok resp ->
  status resp = default 200 (init_status init) /\
  body_bytes (Js.body resp) = body_bytes b /\
  (forall k v, In (k, v) Worker.CORS_HEADERS -> Headers.get k (headers resp) = Some v) /\
  (forall n,
      ~ In (Str.lower n) cors_names -> Str.lower n <> "content-type" ->
      Headers.get n (headers resp)
      = Headers.get n (Headers_new (default (FromObject []) (init_headers init)))).
Proof.
  unfold Worker.corsResponse.
  change (fold_left _ Worker.CORS_HEADERS ?h) with (WorkerAnswers.with_cors h).
  set (h0 := Headers_new (default (FromObject []) (init_headers init))).
  unfold Response_new. cbn [init_status init_headers default from_option id Headers_new].
  set (s := from_option id 200 (init_status init)).
  destruct (negb ((200 <=? s) && (s <=? 599))); [discriminate|].
  assert (Hplain : forall b',
             body_bytes b' = body_bytes b ->
             Ok (mkResponse s (WorkerAnswers.with_cors h0) b') = Ok resp ->
             status resp = s /\
             body_bytes (Js.body resp) = body_bytes b /\
             (forall k v, In (k, v) Worker.CORS_HEADERS ->
                          Headers.get k (headers resp) = Some v) /\
             (forall n, ~ In (Str.lower n) cors_names -> Str.lower n <> "content-type" ->
                        Headers.get n (headers resp) = Headers.get n h0)).
  { intros b' Hb' E. injection E as <-. cbn [status headers Js.body].
    split; [reflexivity|]. split; [exact Hb'|]. split.
    - intros k v Hin. exact (CorsFacts.with_cors_sets h0 k v Hin).
    - intros n Hn _. exact (CorsFacts.with_cors_keeps h0 n Hn). }
  destruct (null_body_status s && negb (body_is_null b)).
  - destruct (String.eqb_spec (body_bytes b) ""); [|discriminate].
    apply Hplain. cbn. congruence.
  - destruct b as [|t|t]; try (apply Hplain; reflexivity).
    destruct (Headers.has "Content-Type" _); [apply Hplain; reflexivity|].
    intros E. injection E as <-. cbn [status headers Js.body].
    split; [reflexivity|]. split; [reflexivity|]. split.
    + intros k v Hin. rewrite CorsFacts.append_keeps.
      * exact (CorsFacts.with_cors_sets h0 k v Hin).
      * unfold Worker.CORS_HEADERS in Hin. cbn [In] in Hin.
        destruct Hin as [E|[E|[E|[E|[]]]]]; injection E as <- <-; vm_compute; discriminate.
    + intros n Hn Hct. rewrite CorsFacts.append_keeps by exact Hct.
      exact (CorsFacts.with_cors_keeps h0 n Hn).
Qed.

(** A target that allows one origin only: the worker's star replaces it,
    the target's Cache-Control stays. *)
Lemma corsResponse_sets_cors_over_init_witness :
  exists resp,
    Worker.corsResponse (BBuffer "<p>hello</p>")
      (mkInit (Some 200)
         (Some (FromObject [ ("Cache-Control", "no-store");
                             ("Access-Control-Allow-Origin", "https://example.com") ])))
    = Ok resp /\
    Headers.get "Access-Control-Allow-Origin" (headers resp) = Some "*" /\
    Headers.get "Cache-Control" (headers resp) = Some "no-store".
Proof.
  eexists. split; [reflexivity|].
  match goal with
  | |- Headers.get _ (headers ?r) = _ /\ _ =>
      destruct (corsResponse_sets_cors_over_init (BBuffer "<p>hello</p>")
                  (mkInit (Some 200)
                     (Some (FromObject [ ("Cache-Control", "no-store");
                                         ("Access-Control-Allow-Origin",
                                          "https://example.com") ])))
                  r eq_refl) as (_ & _ & Hcors & Hrest)
  end.
  split.
  - apply Hcors. vm_compute. left. reflexivity.
  - rewrite Hrest; [vm_compute; reflexivity | vm_compute; intuition discriminate
                   | vm_compute; discriminate].
Defined.

End WorkerExtras.

Module AnswerFacts.
Import Js Net Edge Calls CallsFacts HeaderSets.

(** A response built over headers that already name a Content-Type has
    exactly these headers. *)
Lemma Response_new_typed_headers (b : Body) (st : option Z) (hi : HeadersInit) (resp : Response) :
  Headers.has "Content-Type" (Headers_new hi) = true ->
  Response_new b (mkInit st (Some hi)) = Ok resp ->
  headers resp = Headers_new hi.
Proof.
  intros Hct. unfold Response_new. cbn [init_status init_headers default from_option id].
  destruct (negb _); [discriminate|].
  destruct (null_body_status _ && negb (body_is_null b)).
  - destruct (String.eqb _ _); [|discriminate]. intros E. injection E as <-. reflexivity.
  - destruct b; try rewrite Hct; intros E; injection E as <-; reflexivity.
Qed.

(** Outside the three headers only the worker sets, [corsResponse] does
    to a header set what setting the permissive origin does. *)
Lemma with_cors_outside_worker_only (h : gmap string string) (n : string) :
  ~ In (Str.lower n) worker_only ->
  Headers.get n (WorkerAnswers.with_cors h)
  = Headers.get n (Headers.set "Access-Control-Allow-Origin" "*" h).
Proof.
  unfold worker_only, WorkerAnswers.with_cors, Worker.CORS_HEADERS.
  cbn [fold_left fst snd In]. intros Hn.
  rewrite (JsFacts.get_set_other "Access-Control-Max-Age" n),
    (JsFacts.get_set_other "Access-Control-Allow-Headers" n),
    (JsFacts.get_set_other "Access-Control-Allow-Methods" n);
    [reflexivity | | |];
    intros E; apply Hn; rewrite <- E; vm_compute; tauto.
Qed.

Lemma worker_json_headers :
  WorkerAnswers.json_cors
  = Headers.of_entries (("Content-Type", "application/json") :: Worker.CORS_HEADERS).
Proof. reflexivity. Qed.

Lemma plain_cors_agree (n : string) :
  ~ In (Str.lower n) worker_only ->
  Headers.get n WorkerAnswers.plain_cors = Headers.get n ProxyAnswers.plain_cors.
Proof.
  intros Hn.
  change WorkerAnswers.plain_cors
    with (Headers.set "Content-Type" "text/plain;charset=UTF-8" (WorkerAnswers.with_cors ∅)).
  change ProxyAnswers.plain_cors
    with (Headers.set "Content-Type" "text/plain;charset=UTF-8"
            (Headers.set "Access-Control-Allow-Origin" "*" ∅)).
  destruct (decide (Str.lower "Content-Type" = Str.lower n)) as [E|E].
  - rewrite !(JsFacts.get_set_same _ n) by exact E. reflexivity.
  - rewrite !(JsFacts.get_set_other "Content-Type" n) by exact E.
    apply with_cors_outside_worker_only. exact Hn.
Qed.

Lemma json_cors_agree (n : string) :
  ~ In (Str.lower n) worker_only ->
  Headers.get n WorkerAnswers.json_cors = Headers.get n ClaudeAnswers.json_cors.
Proof.
  intros Hn.
  change WorkerAnswers.json_cors
    with (WorkerAnswers.with_cors (Headers.of_entries [("Content-Type", "application/json")])).
  change ClaudeAnswers.json_cors
    with (Headers.set "Access-Control-Allow-Origin" "*"
            (Headers.of_entries [("Content-Type", "application/json")])).
  apply with_cors_outside_worker_only. exact Hn.
Qed.

Lemma relayed_agree (h : gmap string string) (n : string) :
  ~ In (Str.lower n) worker_only ->
  Headers.get n
    (WorkerAnswers.with_cors
       (Headers.delete "X-Frame-Options" (Headers.delete "Content-Security-Policy" h)))
  = Headers.get n
      (Headers.delete "X-Frame-Options"
         (Headers.delete "Content-Security-Policy"
            (Headers.set "Access-Control-Allow-Origin" "*" h))).
Proof.
  intros Hn. rewrite (with_cors_outside_worker_only _ n Hn).
  unfold Headers.delete, Headers.set.
  rewrite !delete_insert_ne by (vm_compute; discriminate). reflexivity.
Qed.

End AnswerFacts.

Section HandlerExtras.
Import Js Net Edge Calls CallsFacts HeaderSets.

(** X2: a request that is neither a preflight, nor a POST to
    [/api/claude], nor for [/proxy] makes no outbound fetch; it gets
    whatever the static assets answer (their exception included) or, with
    no assets bound, a 404 that carries no CORS header.  A GET to
    [/api/claude] is such a request. *)
Theorem other_requests_go_to_static_assets (net : Network) (request : Request) (env : Env) :
  method request <> "OPTIONS" ->
  ~ (pathname (url request) = "/api/claude" /\ method request = "POST") ->
  pathname (url request) <> "/proxy" ->
  snd (run net (Worker.fetch request env)) = [] /\
  (forall assets, ASSETS env = Some assets ->
                  fst (run net (Worker.fetch request env)) = assets request) /\
  (ASSETS env = None ->
   exists resp,
     fst (run net (Worker.fetch request env)) = Ok resp /\
     status resp = 404 /\
     Js.body resp = BText "Not found" /\
     forall k v, In (k, v) Worker.CORS_HEADERS -> Headers.get k (headers resp) = None).
Proof.
  intros Hm Hc Hp.
  assert (E : Worker.fetch request env
              = match ASSETS env with
                | Some assets => lift (assets request)
                | None => lift (Response_new (BText "Not found") (mkInit (Some 404) None))
                end).
  { unfold Worker.fetch.
    destruct (String.eqb_spec (method request) "OPTIONS"); [contradiction|].
    destruct (String.eqb_spec (pathname (url request)) "/api/claude");
      destruct (String.eqb_spec (method request) "POST"); cbn [andb];
      try (exfalso; apply Hc; split; assumption);
      (destruct (String.eqb_spec (pathname (url request)) "/proxy"); [contradiction|]);
      reflexivity. }
  rewrite E. split; [destruct (ASSETS env); reflexivity|]. split.
  - intros assets ->. reflexivity.
  - intros ->. eexists. split; [reflexivity|]. split; [reflexivity|]. split; [reflexivity|].
    intros k v Hin. unfold Worker.CORS_HEADERS in Hin. cbn [In] in Hin.
    destruct Hin as [H|[H|[H|[H|[]]]]]; injection H as <- <-; vm_compute; reflexivity.
Qed.

Lemma other_requests_go_to_static_assets_witness :
  exists resp,
    run Samples.answering
      (Worker.fetch (mkRequest "GET" (Samples.site "/api/claude" "") (Ok "")) Samples.configured)
    = (Ok resp, []) /\
    status resp = 404 /\
    Headers.get "Access-Control-Allow-Origin" (headers resp) = None.
Proof.
  destruct (other_requests_go_to_static_assets Samples.answering
              (mkRequest "GET" (Samples.site "/api/claude" "") (Ok "")) Samples.configured)
    as (Hlog & _ & Hnone).
  - discriminate.
  - intros [_ H]. discriminate.
  - discriminate.
  - destruct (Hnone eq_refl) as (resp & Hr & Hs & _ & Hh).
    exists resp. split.
    + rewrite (surjective_pairing (run _ _)), Hr, Hlog. reflexivity.
    + split; [exact Hs|]. apply (Hh _ "*"). vm_compute. left. reflexivity.
Defined.

(** X3: whatever comes back from the upstream, every answer to a POST to
    [/api/claude] has the same fixed header set and nothing else: none of
    the upstream's headers is relayed, and neither handler ever throws. *)
Theorem claude_answers_carry_fixed_headers (net : Network) (context : Context) :
  pathname (url (request context)) = "/api/claude" ->
  method (request context) = "POST" ->
  (exists resp,
      fst (run net (Worker.fetch (request context) (env context))) = Ok resp /\
      headers resp
      = Headers.of_entries (("Content-Type", "application/json") :: Worker.CORS_HEADERS)) /\
  (exists resp,
      fst (run net (ClaudeFunction.onRequestPost context)) = Ok resp /\
      headers resp
      = Headers.of_entries [ ("Content-Type", "application/json");
                             ("Access-Control-Allow-Origin", "*") ]).
Proof.
  intros Hp Hm. split.
  - rewrite (WorkerFacts.fetch_claude _ _ Hp Hm), <- AnswerFacts.worker_json_headers.
    destruct (truthy (ANTHROPIC_API_KEY (env context))) eqn:Hk.
    + destruct (JsFacts.truthy_inv _ Hk) as (key & Hkey & Hne).
      destruct (body (request context)) as [payload|e] eqn:Hb.
      * rewrite (WorkerFacts.claude_run net _ _ key payload Hkey Hne Hb). cbn [fst].
        unfold WorkerAnswers.claude_answer.
        destruct (received (net (upstream_call key payload))) as [[r t]|e]; [|eauto].
        destruct (Worker.corsResponse _ _) as [resp|e] eqn:Hr; [|eauto].
        exists resp. split; [reflexivity|].
        exact (AnswerFacts.Response_new_typed_headers _ _
                 (FromHeaders WorkerAnswers.json_cors) resp WorkerFacts.json_cors_typed Hr).
      * rewrite (WorkerFacts.claude_run_unread net _ _ key e Hkey Hne Hb). eauto.
    + rewrite (WorkerFacts.claude_run_unconfigured net _ _ Hk). eauto.
  - change (Headers.of_entries _) with ClaudeAnswers.json_cors.
    destruct (truthy (ANTHROPIC_API_KEY (env context))) eqn:Hk.
    + destruct (JsFacts.truthy_inv _ Hk) as (key & Hkey & Hne).
      destruct (body (request context)) as [payload|e] eqn:Hb.
      * rewrite (ClaudeFunctionFacts.run_post net _ key payload Hkey Hne Hb). cbn [fst].
        unfold ClaudeAnswers.answer.
        destruct (received (net (upstream_call key payload))) as [[r t]|e]; [|eauto].
        destruct (Response_new _ _) as [resp|e] eqn:Hr; [|eauto].
        exists resp. split; [reflexivity|].
        exact (AnswerFacts.Response_new_typed_headers _ _
                 (FromObject [ ("Content-Type", "application/json");
                               ("Access-Control-Allow-Origin", "*") ])
                 resp ClaudeFunctionFacts.claude_json_typed Hr).
      * rewrite (ClaudeFunctionFacts.run_unread net _ key e Hkey Hne Hb). eauto.
    + rewrite (ClaudeFunctionFacts.run_unconfigured net _ Hk). eauto.
Qed.

(** An upstream that sends rate-limit headers: they do not come back. *)
Lemma claude_answers_carry_fixed_headers_witness :
  exists resp,
    fst (run (fun _ => Resolved (mkIncoming 429 [("retry-after", "30")] (Ok "{}")))
           (ClaudeFunction.onRequestPost (mkContext Samples.post_claude Samples.configured)))
    = Ok resp /\
    Headers.get "Retry-After" (headers resp) = None.
Proof.
  destruct (claude_answers_carry_fixed_headers
              (fun _ => Resolved (mkIncoming 429 [("retry-after", "30")] (Ok "{}")))
              (mkContext Samples.post_claude Samples.configured))
    as (_ & resp & Hr & Hh).
  - reflexivity.
  - reflexivity.
  - exists resp. split; [exact Hr|]. rewrite Hh. vm_compute. reflexivity.
Defined.

(** X4: every outbound call of a [/proxy] run is a plain GET of the
    [url] parameter: three fixed headers, redirects followed, no body,
    and never the configured credential, whatever the inbound request
    carried. *)
Theorem proxy_call_carries_nothing_inbound (net : Network) (context : Context) (call : FetchCall) :
  pathname (url (request context)) = "/proxy" ->
  In call (snd (run net (Worker.fetch (request context) (env context)))) \/
  In call (snd (run net (ProxyFunction.onRequestGet context))) ->
  URLSearchParams.get "url" (searchParams (url (request context))) = Some (target call) /\
  target call <> "" /\
  ri_method (init call) = None /\
  ri_body (init call) = None /\
  ri_redirect (init call) = Some "follow" /\
  map fst (ri_headers (init call)) = ["User-Agent"; "Accept"; "Accept-Language"] /\
  property "x-api-key" (ri_headers (init call)) = None.
Proof.
  intros Hp Hin.
  assert (Ht : exists t,
             URLSearchParams.get "url" (searchParams (url (request context))) = Some t /\
             t <> "" /\ call = target_call t).
  { destruct Hin as [Hin|Hin].
    - destruct (WorkerFacts.fetch_calls net _ _ call Hin)
        as [(Hp' & _) | (_ & _ & _ & Heq)]; [rewrite Hp in Hp'; discriminate|].
      rewrite Heq in Hin. exact (WorkerFacts.proxy_calls net _ call Hin).
    - exact (ProxyFunctionFacts.get_calls net context call Hin). }
  destruct Ht as (t & Hu & Hne & ->). repeat split; assumption || reflexivity.
Qed.

Lemma proxy_call_carries_nothing_inbound_witness :
  property "x-api-key"
    (ri_headers (init (target_call "https://api.anthropic.com/v1/messages"))) = None.
Proof.
  apply (proxy_call_carries_nothing_inbound Samples.answering
           (mkContext
              (mkRequest "POST"
                 (Samples.site "/proxy" "url=https://api.anthropic.com/v1/messages")
                 (Ok "payload"))
              Samples.configured)
           (target_call "https://api.anthropic.com/v1/messages")).
  - reflexivity.
  - left. vm_compute. left. reflexivity.
Defined.

(** X5: the [/proxy] branch of the worker never looks at the method or
    the body: two requests to [/proxy] with any methods but OPTIONS and
    the same [url] parameter run identically, so a POST is served like a
    GET. *)
Theorem worker_proxy_is_method_blind
  (net : Network) (request request' : Request) (env env' : Env) :
  pathname (url request) = "/proxy" -> pathname (url request') = "/proxy" ->
  method request <> "OPTIONS" -> method request' <> "OPTIONS" ->
  URLSearchParams.get "url" (searchParams (url request))
  = URLSearchParams.get "url" (searchParams (url request')) ->
  run net (Worker.fetch request env) = run net (Worker.fetch request' env').
Proof.
  intros Hp Hp' Hm Hm' Hu.
  rewrite (WorkerFacts.fetch_proxy _ _ Hp Hm), (WorkerFacts.fetch_proxy _ _ Hp' Hm').
  unfold Worker.proxy. rewrite Hu. reflexivity.
Qed.

Lemma worker_proxy_is_method_blind_witness :
  run Samples.framed
    (Worker.fetch (mkRequest "POST" (Samples.site "/proxy" "url=https://example.com/a")
                     (Ok "ignored"))
       Samples.unconfigured)
  = run Samples.framed
      (Worker.fetch (Samples.get_proxy "url=https://example.com/a") Samples.configured).
Proof.
  apply worker_proxy_is_method_blind; try reflexivity; discriminate.
Defined.

End HandlerExtras.

Section StatusExtras.
Import Js Net Edge Calls CallsFacts HeaderSets.

(** X6: when the upstream answers with a status outside 200..599, no
    response can be built with it: the constructor's exception is caught
    like a network failure and the caller gets 502 with the exception's
    message as the JSON [error], from the worker and from the Pages
    function. *)
Theorem upstream_bad_status_gets_502
  (net : Network) (context : Context) (key payload : string) (r : Incoming) (t : string) :
  pathname (url (request context)) = "/api/claude" ->
  method (request context) = "POST" ->
  ANTHROPIC_API_KEY (env context) = Some key -> key <> "" ->
  body (request context) = Ok payload ->
  net (upstream_call key payload) = Resolved r ->
  read_body r = Ok t ->
  ~ (200 <= in_status r <= 599) ->
  (exists resp,
      run net (Worker.fetch (request context) (env context))
      = (Ok resp, [upstream_call key payload]) /\
      status resp = 502 /\
      Js.body resp = BText (JSON.stringify [("error", message status_range_error)])) /\
  (exists resp,
      run net (ClaudeFunction.onRequestPost context)
      = (Ok resp, [upstream_call key payload]) /\
      status resp = 502 /\
      Js.body resp = BText (JSON.stringify [("error", message status_range_error)])).
Proof.
  intros Hp Hm Hk Hne Hb Hnet Hread Hs. split.
  - rewrite (WorkerFacts.fetch_claude _ _ Hp Hm).
    rewrite (WorkerFacts.claude_run net _ _ key payload Hk Hne Hb).
    rewrite (received_ok _ r t Hnet Hread).
    rewrite (WorkerFacts.claude_answer_bad_status r t Hs).
    eexists. repeat split; reflexivity.
  - rewrite (ClaudeFunctionFacts.run_post net _ key payload Hk Hne Hb).
    rewrite (received_ok _ r t Hnet Hread).
    rewrite (ClaudeFunctionFacts.claude_fn_bad_status r t Hs).
    eexists. repeat split; reflexivity.
Qed.

Lemma upstream_bad_status_gets_502_witness :
  exists resp,
    fst (run (fun _ => Resolved (mkIncoming 999 [] (Ok "denied")))
           (ClaudeFunction.onRequestPost (mkContext Samples.post_claude Samples.configured)))
    = Ok resp /\
    status resp = 502.
Proof.
  destruct (upstream_bad_status_gets_502
              (fun _ => Resolved (mkIncoming 999 [] (Ok "denied")))
              (mkContext Samples.post_claude Samples.configured)
              "sk-ant-api03-secret"
              ("{" +:+ JSON.quote "model" +:+ ":" +:+ JSON.quote "x" +:+ "}")
              (mkIncoming 999 [] (Ok "denied")) "denied")
    as (_ & resp & Hr & Hs & _).
  - reflexivity.
  - reflexivity.
  - reflexivity.
  - discriminate.
  - reflexivity.
  - reflexivity.
  - reflexivity.
  - simpl. lia.
  - exists resp. rewrite Hr. split; [reflexivity | exact Hs].
Defined.

(** X7: when the target of [/proxy] answers with a status outside
    200..599, the caller gets 502 and [Proxy error: ] followed by the
    constructor's message, not the target's status and content. *)
Theorem target_bad_status_gets_502
  (net : Network) (context : Context) (t : string) (r : Incoming) (bytes : string) :
  pathname (url (request context)) = "/proxy" ->
  method (request context) = "GET" ->
  URLSearchParams.get "url" (searchParams (url (request context))) = Some t -> t <> "" ->
  net (target_call t) = Resolved r ->
  read_body r = Ok bytes ->
  ~ (200 <= in_status r <= 599) ->
  (exists resp,
      run net (Worker.fetch (request context) (env context)) = (Ok resp, [target_call t]) /\
      status resp = 502 /\
      Js.body resp = BText ("Proxy error: " +:+ message status_range_error)) /\
  (exists resp,
      run net (ProxyFunction.onRequestGet context) = (Ok resp, [target_call t]) /\
      status resp = 502 /\
      Js.body resp = BText ("Proxy error: " +:+ message status_range_error)).
Proof.
  intros Hp Hm Hu Hne Hnet Hread Hs. split.
  - rewrite (WorkerFacts.fetch_proxy _ _ Hp) by (rewrite Hm; discriminate).
    rewrite (WorkerFacts.proxy_run net _ t Hu Hne).
    rewrite (received_ok _ r bytes Hnet Hread).
    rewrite (WorkerFacts.proxy_answer_bad_status r bytes Hs).
    rewrite WorkerFacts.proxy_error_response.
    eexists. repeat split; reflexivity.
  - rewrite (ProxyFunctionFacts.run_get net _ t Hu Hne).
    rewrite (received_ok _ r bytes Hnet Hread).
    rewrite (ProxyFunctionFacts.proxy_fn_bad_status r bytes Hs).
    eexists. repeat split; reflexivity.
Qed.

Lemma target_bad_status_gets_502_witness :
  exists resp,
    fst (run (fun _ => Resolved (mkIncoming 999 [] (Ok "Request denied")))
           (ProxyFunction.onRequestGet
              (mkContext (Samples.get_proxy "url=https://example.com/a") Samples.configured)))
    = Ok resp /\
    status resp = 502.
Proof.
  destruct (target_bad_status_gets_502
              (fun _ => Resolved (mkIncoming 999 [] (Ok "Request denied")))
              (mkContext (Samples.get_proxy "url=https://example.com/a") Samples.configured)
              "https://example.com/a"
              (mkIncoming 999 [] (Ok "Request denied")) "Request denied")
    as (_ & resp & Hr & Hs & _).
  - reflexivity.
  - reflexivity.
  - vm_compute. reflexivity.
  - discriminate.
  - reflexivity.
  - reflexivity.
  - simpl. lia.
  - exists resp. rewrite Hr. split; [reflexivity | exact Hs].
Defined.

(** X8: on a POST to [/api/claude] the combined worker and the Pages
    function make the same outbound calls and answer with the same
    status; with a credential configured the content is the same too; and
    their headers differ only in the three CORS headers that the worker
    alone sets. *)
Theorem claude_variants_agree (net : Network) (context : Context) :
  pathname (url (request context)) = "/api/claude" ->
  method (request context) = "POST" ->
  snd (run net (Worker.fetch (request context) (env context)))
  = snd (run net (ClaudeFunction.onRequestPost context)) /\
  exists rw rp,
    fst (run net (Worker.fetch (request context) (env context))) = Ok rw /\
    fst (run net (ClaudeFunction.onRequestPost context)) = Ok rp /\
    status rw = status rp /\
    (truthy (ANTHROPIC_API_KEY (env context)) = true -> Js.body rw = Js.body rp) /\
    (forall n, ~ In (Str.lower n) worker_only ->
               Headers.get n (headers rw) = Headers.get n (headers rp)).
Proof.
  intros Hp Hm. rewrite (WorkerFacts.fetch_claude _ _ Hp Hm).
  destruct (truthy (ANTHROPIC_API_KEY (env context))) eqn:Hk.
  - destruct (JsFacts.truthy_inv _ Hk) as (key & Hkey & Hne).
    destruct (body (request context)) as [payload|e] eqn:Hb.
    + rewrite (WorkerFacts.claude_run net _ _ key payload Hkey Hne Hb).
      rewrite (ClaudeFunctionFacts.run_post net _ key payload Hkey Hne Hb).
      split; [reflexivity|]. cbn [fst].
      destruct (net (upstream_call key payload)) as [e|r] eqn:Hnet.
      { cbn [received]. do 2 eexists. split; [reflexivity|]. split; [reflexivity|].
        split; [reflexivity|]. split; [reflexivity|]. exact AnswerFacts.json_cors_agree. }
      destruct (read_body r) as [t|e] eqn:Hread.
      2:{ cbn [received]. rewrite Hread.
          do 2 eexists. split; [reflexivity|]. split; [reflexivity|].
          split; [reflexivity|]. split; [reflexivity|]. exact AnswerFacts.json_cors_agree. }
      rewrite (received_ok _ r t eq_refl Hread).
      destruct (decide (200 <= in_status r <= 599)) as [Hs|Hs].
      * rewrite (WorkerFacts.claude_answer_relays r t Hs Hread).
        rewrite (ClaudeFunctionFacts.claude_fn_relays r t Hs Hread).
        do 2 eexists. split; [reflexivity|]. split; [reflexivity|].
        split; [reflexivity|]. split; [reflexivity|]. exact AnswerFacts.json_cors_agree.
      * rewrite (WorkerFacts.claude_answer_bad_status r t Hs).
        rewrite (ClaudeFunctionFacts.claude_fn_bad_status r t Hs).
        do 2 eexists. split; [reflexivity|]. split; [reflexivity|].
        split; [reflexivity|]. split; [reflexivity|]. exact AnswerFacts.json_cors_agree.
    + rewrite (WorkerFacts.claude_run_unread net _ _ key e Hkey Hne Hb).
      rewrite (ClaudeFunctionFacts.run_unread net _ key e Hkey Hne Hb).
      split; [reflexivity|].
      do 2 eexists. split; [reflexivity|]. split; [reflexivity|].
      split; [reflexivity|]. split; [reflexivity|]. exact AnswerFacts.json_cors_agree.
  - rewrite (WorkerFacts.claude_run_unconfigured net _ _ Hk).
    rewrite (ClaudeFunctionFacts.run_unconfigured net _ Hk).
    split; [reflexivity|].
    do 2 eexists. split; [reflexivity|]. split; [reflexivity|].
    split; [reflexivity|]. split; [discriminate|]. exact AnswerFacts.json_cors_agree.
Qed.

Lemma claude_variants_agree_witness :
  snd (run Samples.echoing (Worker.fetch Samples.post_claude Samples.configured))
  = snd (run Samples.echoing
           (ClaudeFunction.onRequestPost (mkContext Samples.post_claude Samples.configured))).
Proof.
  apply (claude_variants_agree Samples.echoing
           (mkContext Samples.post_claude Samples.configured)); reflexivity.
Defined.

(** X9: on a GET to [/proxy] the combined worker and the Pages function
    make the same outbound calls and answer with the same status and the
    same content in every case (missing parameter, relayed answer, failed
    fetch, status that cannot be relayed); their headers differ only in
    the three CORS headers that the worker alone sets. *)
Theorem proxy_variants_agree (net : Network) (context : Context) :
  pathname (url (request context)) = "/proxy" ->
  method (request context) = "GET" ->
  snd (run net (Worker.fetch (request context) (env context)))
  = snd (run net (ProxyFunction.onRequestGet context)) /\
  exists rw rp,
    fst (run net (Worker.fetch (request context) (env context))) = Ok rw /\
    fst (run net (ProxyFunction.onRequestGet context)) = Ok rp /\
    status rw = status rp /\
    Js.body rw = Js.body rp /\
    (forall n, ~ In (Str.lower n) worker_only ->
               Headers.get n (headers rw) = Headers.get n (headers rp)).
Proof.
  intros Hp Hm.
  rewrite (WorkerFacts.fetch_proxy _ _ Hp) by (rewrite Hm; discriminate).
  destruct (truthy (URLSearchParams.get "url" (searchParams (url (request context)))))
    eqn:Hu.
  - destruct (JsFacts.truthy_inv _ Hu) as (t & Ht & Hne).
    rewrite (WorkerFacts.proxy_run net _ t Ht Hne).
    rewrite (ProxyFunctionFacts.run_get net _ t Ht Hne).
    split; [reflexivity|]. cbn [fst].
    destruct (net (target_call t)) as [e|r] eqn:Hnet.
    { cbn [received]. unfold WorkerAnswers.proxy_answer.
      rewrite WorkerFacts.proxy_error_response.
      do 2 eexists. split; [reflexivity|]. split; [reflexivity|].
      split; [reflexivity|]. split; [reflexivity|]. exact AnswerFacts.plain_cors_agree. }
    destruct (read_body r) as [bytes|e] eqn:Hread.
    2:{ cbn [received]. rewrite Hread. unfold WorkerAnswers.proxy_answer.
        rewrite WorkerFacts.proxy_error_response.
        do 2 eexists. split; [reflexivity|]. split; [reflexivity|].
        split; [reflexivity|]. split; [reflexivity|]. exact AnswerFacts.plain_cors_agree. }
    rewrite (received_ok _ r bytes eq_refl Hread).
    destruct (decide (200 <= in_status r <= 599)) as [Hs|Hs].
    + rewrite (WorkerFacts.proxy_answer_relays r bytes Hs Hread).
      rewrite (ProxyFunctionFacts.proxy_fn_relays r bytes Hs Hread).
      do 2 eexists. split; [reflexivity|]. split; [reflexivity|].
      split; [reflexivity|]. split; [reflexivity|].
      intros n Hn. exact (AnswerFacts.relayed_agree _ n Hn).
    + rewrite (WorkerFacts.proxy_answer_bad_status r bytes Hs).
      rewrite (ProxyFunctionFacts.proxy_fn_bad_status r bytes Hs).
      rewrite WorkerFacts.proxy_error_response.
      do 2 eexists. split; [reflexivity|]. split; [reflexivity|].
      split; [reflexivity|]. split; [reflexivity|]. exact AnswerFacts.plain_cors_agree.
  - rewrite (WorkerFacts.proxy_run_missing net _ Hu).
    rewrite (ProxyFunctionFacts.run_missing net _ Hu).
    split; [reflexivity|].
    do 2 eexists. split; [reflexivity|]. split; [reflexivity|].
    split; [reflexivity|]. split; [reflexivity|]. exact AnswerFacts.plain_cors_agree.
Qed.

Lemma proxy_variants_agree_witness :
  snd (run Samples.framed
         (Worker.fetch (Samples.get_proxy "url=https://example.com/a") Samples.configured))
  = snd (run Samples.framed
           (ProxyFunction.onRequestGet
              (mkContext (Samples.get_proxy "url=https://example.com/a") Samples.configured))).
Proof.
  apply (proxy_variants_agree Samples.framed
           (mkContext (Samples.get_proxy "url=https://example.com/a") Samples.configured));
    reflexivity.
Defined.

End StatusExtras.

(** ** Query strings and JSON bodies *)

Module TextFacts.
Import Js Text.










(** Strings: cancellation on both sides of an append. *)

Lemma append_inv_head (a x y : string) : a +:+ x = a +:+ y -> x = y.
Proof.
  induction a as [|c a IH]; cbn [String.append]; [auto|].
  intros H. injection H as H. auto.
Qed.

Lemma length_append (a b : string) :
  String.length (a +:+ b) = (String.length a + String.length b)%nat.
Proof.
  induction a as [|c a IH]; simpl; [reflexivity|].
  f_equal. exact IH.
Qed.

Lemma append_inv_tail (x y c : string) : x +:+ c = y +:+ c -> x = y.
Proof.
  revert y. induction x as [|a x IH]; intros [|b y] H.
  - reflexivity.
  - apply (f_equal String.length) in H. simpl in H.
    rewrite !length_append in H. simpl in H. lia.
  - apply (f_equal String.length) in H. simpl in H.
    rewrite !length_append in H. simpl in H. lia.
  - simpl in H. injection H as -> H. rewrite (IH y H). reflexivity.
Qed.

(** Escaping one byte and reading it back. *)
Lemma unescape_escape (c : ascii) (rest : string) :
  unescape_all (JSON.escape c +:+ rest) = prepend c (unescape_all rest).
Proof.
  destruct c as [[] [] [] [] [] [] [] []]; reflexivity.
Qed.

Lemma unescape_escape_all (s : string) : unescape_all (JSON.escape_all s) = Some s.
Proof.
  induction s as [|c s IH]; [reflexivity|].
  simpl. rewrite unescape_escape, IH. reflexivity.
Qed.

Lemma escape_all_inj (s s' : string) : JSON.escape_all s = JSON.escape_all s' -> s = s'.
Proof.
  intros H. apply (f_equal unescape_all) in H.
  rewrite !unescape_escape_all in H. congruence.
Qed.

Lemma every_append (p : ascii -> bool) (a b : string) :
  every p (a +:+ b) = every p a && every p b.
Proof.
  induction a as [|c a IH]; simpl; [reflexivity|].
  rewrite IH, andb_assoc. reflexivity.
Qed.

Lemma escape_above_controls (c : ascii) : every above_controls (JSON.escape c) = true.
Proof.
  destruct c as [[] [] [] [] [] [] [] []]; reflexivity.
Qed.

Lemma escape_all_above_controls (s : string) :
  every above_controls (JSON.escape_all s) = true.
Proof.
  induction s as [|c s IH]; [reflexivity|].
  simpl. rewrite every_append, escape_above_controls, IH. reflexivity.
Qed.

Lemma quote_above_controls (s : string) : every above_controls (JSON.quote s) = true.
Proof.
  unfold JSON.quote. simpl. rewrite every_append, escape_all_above_controls.
  reflexivity.
Qed.

Lemma join_members_above_controls (fields : list (string * string)) :
  every above_controls (Str.join "," (map JSON.member fields)) = true.
Proof.
  assert (Hm : forall kv, every above_controls (JSON.member kv) = true).
  { intros kv. unfold JSON.member.
    rewrite !every_append, !quote_above_controls. reflexivity. }
  induction fields as [|kv fields IH]; [reflexivity|].
  simpl. destruct (map JSON.member fields) as [|m ms] eqn:E.
  - apply Hm.
  - rewrite !every_append, Hm, IH. reflexivity.
Qed.

End TextFacts.

Section TextExtras.
Import Js Net Edge Calls CallsFacts Text.



(** X11: the JSON body of an error answer determines the message: two
    messages that give the same [JSON.stringify({ error: message })] are
    the same message, so escaping loses nothing. *)
Theorem error_body_determines_message (k m m' : string) :
  JSON.stringify [(k, m)] = JSON.stringify [(k, m')] -> m = m'.
Proof.
  unfold JSON.stringify, JSON.member, JSON.quote. simpl.
  intros H.
  apply TextFacts.append_inv_head, TextFacts.append_inv_tail in H.
  apply TextFacts.append_inv_head, TextFacts.append_inv_head in H.
  injection H as H.
  apply TextFacts.append_inv_tail in H.
  exact (TextFacts.escape_all_inj m m' H).
Qed.

Lemma error_body_determines_message_witness :
  "fetch failed" = "fetch failed".
Proof.
  apply (error_body_determines_message "error" "fetch failed" "fetch failed").
  reflexivity.
Defined.

(** X12: whatever the field values contain (quotes, backslashes, line
    breaks, other control characters), [JSON.stringify] of a flat object
    of strings contains no control character: the error bodies are one
    line of text. *)
Theorem json_body_has_no_control_character (fields : list (string * string)) :
  every above_controls (JSON.stringify fields) = true.
Proof.
  unfold JSON.stringify.
  rewrite !TextFacts.every_append, TextFacts.join_members_above_controls. reflexivity.
Qed.

End TextExtras.

(** ** The service worker over several events *)

Module CacheFacts.
Import Js ServiceWorker CacheSteps ServiceWorkerFacts.

Lemma has_cache_app (nm : string) (cs : list (string * gmap URL Response)) :
  has_cache nm (cs ++ [(nm, ∅)])%list = true.
Proof.
  induction cs as [|[n c] cs IH]; simpl.
  - rewrite String.eqb_refl. reflexivity.
  - rewrite IH. apply orb_true_r.
Qed.

Lemma has_cache_opened (cs : list (string * gmap URL Response)) :
  has_cache CACHE (opened cs) = true.
Proof.
  unfold opened. destruct (has_cache CACHE cs) eqn:E; [exact E | apply has_cache_app].
Qed.

(** Storing into a bucket that exists, under a URL that no bucket
    holds: afterwards that URL is found, and no other one is. *)
Lemma lookup_store (nm : string) (k u : URL) (r : Response)
  (cs : list (string * gmap URL Response)) :
  has_cache nm cs = true ->
  lookup_caches u cs = None ->
  lookup_caches u (store nm k r cs) = if decide (k = u) then Some r else None.
Proof.
  induction cs as [|[n c] cs IH]; simpl; [discriminate|].
  intros Hc Hl. destruct (c !! u) eqn:Hu; [discriminate|].
  destruct (String.eqb n nm) eqn:En; simpl.
  - rewrite lookup_insert. destruct (decide (k = u)); [reflexivity|].
    rewrite Hu. exact Hl.
  - rewrite Hu. apply IH; assumption.
Qed.

Lemma lookup_caches_entry (u : URL) (r : Response) (cs : list (string * gmap URL Response)) :
  lookup_caches u cs = Some r -> exists nm c, In (nm, c) cs /\ c !! u = Some r.
Proof.
  induction cs as [|[n c] cs IH]; simpl; [discriminate|].
  destruct (c !! u) eqn:Hu.
  - intros E. injection E as <-. exists n, c. auto.
  - intros E. destruct (IH E) as (nm & c' & Hin & Hl). exists nm, c'. auto.
Qed.

Lemma filter_current_twice (cs : list (string * gmap URL Response)) :
  filter (fun nc : string * gmap URL Response => nc.1 = CACHE)
    (filter (fun nc : string * gmap URL Response => nc.1 = CACHE) cs)
  = filter (fun nc : string * gmap URL Response => nc.1 = CACHE) cs.
Proof.
  induction cs as [|nc cs IH]; [reflexivity|].
  destruct (decide (nc.1 = CACHE)) as [E|E].
  - rewrite filter_cons_True by exact E. rewrite filter_cons_True by exact E.
    rewrite IH. reflexivity.
  - rewrite filter_cons_False by exact E. exact IH.
Qed.

(** The state an installation that stored the root document leaves. *)
Lemma oninstall_stored (w : World) (s : State) (res : Response) :
  network w (mkRequest "GET" (root w)) = Ok res ->
  ok res = true ->
  uncacheable (mkRequest "GET" (root w)) res = false ->
  snd (oninstall w s)
  = mkState (store CACHE (root w) res (opened (caches s)))
      (requests s ++ [mkRequest "GET" (root w)])%list
      (writes s ++ [(CACHE, mkRequest "GET" (root w), res)])%list.
Proof.
  intros Hn Hok Hu. rewrite oninstall_run. cbn [snd]. rewrite Hn, Hok, Hu. reflexivity.
Qed.

End CacheFacts.

Section CacheExtras.
Import Js ServiceWorker CacheSteps ServiceWorkerFacts.

(** X13: activation never fails, asks the network for nothing and writes
    nothing; afterwards exactly the buckets named as the current version
    remain, with their content untouched, so every later cache lookup is
    answered from the current version; activating again changes
    nothing. *)
Theorem activation_keeps_current_version_only (w w' : World) (s : State) :
  fst (onactivate w s) = Ok tt /\
  requests (snd (onactivate w s)) = requests s /\
  writes (snd (onactivate w s)) = writes s /\
  (forall nm c, In (nm, c) (caches (snd (onactivate w s)))
                <-> nm = CACHE /\ In (nm, c) (caches s)) /\
  (forall u r, lookup_caches u (caches (snd (onactivate w s))) = Some r ->
               entry (caches s) CACHE u r) /\
  onactivate w' (snd (onactivate w s)) = onactivate w s.
Proof.
  unfold onactivate. cbn [fst snd caches requests writes].
  split; [reflexivity|]. split; [reflexivity|]. split; [reflexivity|].
  assert (Hin : forall nm c,
             In (nm, c) (filter (fun nc : string * gmap URL Response => nc.1 = CACHE) (caches s))
             <-> nm = CACHE /\ In (nm, c) (caches s)).
  { intros nm c. rewrite <- !list_elem_of_In, list_elem_of_filter. reflexivity. }
  split; [exact Hin|]. split.
  - intros u r Hl. destruct (CacheFacts.lookup_caches_entry u r _ Hl) as (nm & c & Hi & Hc).
    apply Hin in Hi as [-> Hi]. exists c. auto.
  - rewrite CacheFacts.filter_current_twice. reflexivity.
Qed.

(** A bucket of the previous version goes, with what it held. *)
Lemma activation_keeps_current_version_only_witness :
  lookup_caches (url (CacheSamples.page "/old.css"))
    (caches (snd (onactivate CacheSamples.up UpgradeSamples.two_versions)))
  = None.
Proof.
  destruct (lookup_caches _ _) as [r|] eqn:E; [|reflexivity]. exfalso.
  destruct (activation_keeps_current_version_only CacheSamples.up CacheSamples.up
              UpgradeSamples.two_versions)
    as (_ & _ & _ & _ & H & _).
  destruct (H _ _ E) as (c & [Hc|[Hc|[]]] & Hl).
  - discriminate Hc.
  - injection Hc as <-. vm_compute in Hl. discriminate Hl.
Defined.

(** X14: installation never fails, whatever the network does, and asks
    for the root document exactly once; when the network fails or its
    answer is not ok, nothing is written and every cache lookup is as
    before. *)
Theorem install_tolerates_failure (w : World) (s : State) :
  fst (oninstall w s) = Ok tt /\
  requests (snd (oninstall w s)) = (requests s ++ [mkRequest "GET" (root w)])%list /\
  ((forall res, network w (mkRequest "GET" (root w)) = Ok res -> ok res = false) ->
   writes (snd (oninstall w s)) = writes s /\
   forall u, lookup_caches u (caches (snd (oninstall w s))) = lookup_caches u (caches s)).
Proof.
  rewrite oninstall_run. cbn [fst snd]. split; [reflexivity|].
  destruct (network w (mkRequest "GET" (root w))) as [res|e] eqn:Hn.
  - destruct (negb (ok res) || uncacheable _ res) eqn:Hg; cbn [requests].
    + split; [reflexivity|]. intros _. cbn [writes caches].
      split; [reflexivity|]. intros u. apply lookup_caches_opened.
    + split; [reflexivity|]. intros H. rewrite (H res eq_refl) in Hg. discriminate.
  - cbn [requests writes caches]. split; [reflexivity|]. intros _.
    split; [reflexivity|]. intros u. apply lookup_caches_opened.
Qed.

Lemma install_tolerates_failure_witness :
  writes (snd (oninstall CacheSamples.down CacheSamples.fresh)) = [].
Proof.
  destruct (install_tolerates_failure CacheSamples.down CacheSamples.fresh) as (_ & _ & H).
  destruct H as [Hw _].
  - intros res Hres. discriminate Hres.
  - exact Hw.
Defined.

(** X15: install, then go offline.  When installation fetched an ok,
    cacheable root document and no bucket held one before, a later
    intercepted request that is not cached and cannot reach the network
    is answered with that root document. *)
Theorem installed_root_is_the_offline_answer
  (w w' : World) (s : State) (res : Response) (rq : Request) (e : Error) :
  location w' = location w ->
  network w (mkRequest "GET" (root w)) = Ok res ->
  ok res = true ->
  uncacheable (mkRequest "GET" (root w)) res = false ->
  lookup_caches (root w) (caches s) = None ->
  lookup_caches (url rq) (caches s) = None ->
  bypassed (location w') rq = false ->
  network w' rq = Throw e ->
  fst (onfetch rq w' (snd (oninstall w s))) = Ok (Some (Some res)).
Proof.
  intros Hloc Hn Hok Hu Hroot Hrq Hb Hoff.
  rewrite (CacheFacts.oninstall_stored w s res Hn Hok Hu).
  set (s1 := mkState _ _ _).
  assert (Hlook : forall u, lookup_caches u (caches s) = None ->
                            lookup_caches u (caches s1)
                            = if decide (root w = u) then Some res else None).
  { intros u Hnone. unfold s1. cbn [caches].
    apply CacheFacts.lookup_store; [apply CacheFacts.has_cache_opened|].
    rewrite lookup_caches_opened. exact Hnone. }
  assert (Hr' : root w' = root w) by (unfold root; rewrite Hloc; reflexivity).
  destruct (decide (root w = url rq)) as [E|E].
  - rewrite (onfetch_hit w' s1 rq res Hb); [reflexivity|].
    rewrite (Hlook _ Hrq). destruct (decide (root w = url rq)); [reflexivity | contradiction].
  - rewrite (onfetch_offline w' s1 rq e Hb); [| | exact Hoff].
    + cbn [fst]. rewrite Hr', (Hlook _ Hroot).
      destruct (decide (root w = root w)); [reflexivity | contradiction].
    + rewrite (Hlook _ Hrq). destruct (decide (root w = url rq)); [contradiction | reflexivity].
Qed.

Lemma installed_root_is_the_offline_answer_witness :
  fst (onfetch (CacheSamples.page "/feed") CacheSamples.down
         (snd (oninstall UpgradeSamples.serving CacheSamples.fresh)))
  = Ok (Some (Some CacheSamples.shell)).
Proof.
  apply (installed_root_is_the_offline_answer
           UpgradeSamples.serving CacheSamples.down
           CacheSamples.fresh CacheSamples.shell (CacheSamples.page "/feed")
           (mkError "TypeError" "Failed to fetch")).
  - reflexivity.
  - reflexivity.
  - reflexivity.
  - vm_compute. reflexivity.
  - reflexivity.
  - reflexivity.
  - vm_compute. reflexivity.
  - reflexivity.
Defined.



(** X17: the fetch listener never throws and asks the network at most
    once per event; on a cache miss that the network answers, the page
    gets the network's response as it is, whatever its status and whether
    or not it could be stored. *)
Theorem fetch_listener_always_answers (w : World) (s : State) (rq : Request) :
  (exists answer, fst (onfetch rq w s) = Ok answer) /\
  (requests (snd (onfetch rq w s)) = requests s \/
   requests (snd (onfetch rq w s)) = (requests s ++ [rq])%list) /\
  (forall res,
      bypassed (location w) rq = false ->
      lookup_caches (url rq) (caches s) = None ->
      network w rq = Ok res ->
      fst (onfetch rq w s) = Ok (Some (Some res)) /\
      requests (snd (onfetch rq w s)) = (requests s ++ [rq])%list).
Proof.
  destruct (bypassed (location w) rq) eqn:Hb.
  { rewrite (onfetch_bypassed _ _ _ Hb). split; [eauto|]. split; [auto|]. discriminate. }
  destruct (lookup_caches (url rq) (caches s)) as [r|] eqn:Hl.
  { rewrite (onfetch_hit _ _ _ r Hb Hl). split; [eauto|]. split; [auto|].
    intros res _ H. discriminate H. }
  destruct (network w rq) as [res|e] eqn:Hn.
  - rewrite (onfetch_miss _ _ _ res Hb Hl Hn). cbn [fst snd].
    assert (Hreq : requests
                     (if storable w rq res
                      then if uncacheable rq res
                           then mkState (opened (caches s)) (requests s ++ [rq])%list (writes s)
                           else mkState (store CACHE (url rq) res (opened (caches s)))
                                  (requests s ++ [rq])%list
                                  (writes s ++ [(CACHE, rq, res)])%list
                      else asked rq s)
                   = (requests s ++ [rq])%list).
    { destruct (storable w rq res); [destruct (uncacheable rq res)|]; reflexivity. }
    split; [eauto|]. split; [right; exact Hreq|].
    intros res' _ _ E. injection E as <-. split; [reflexivity | exact Hreq].
  - rewrite (onfetch_offline _ _ _ e Hb Hl Hn). split; [cbn; eauto|].
    split; [right; reflexivity|]. intros res _ _ H. discriminate H.
Qed.

(** A page the server does not have: the 404 reaches the page and is not
    stored. *)
Lemma fetch_listener_always_answers_witness :
  fst (onfetch (CacheSamples.page "/nowhere") UpgradeSamples.missing_pages
         CacheSamples.installed)
  = Ok (Some (Some UpgradeSamples.not_found)) /\
  writes (snd (onfetch (CacheSamples.page "/nowhere") UpgradeSamples.missing_pages
                 CacheSamples.installed)) = [].
Proof.
  split.
  - apply (fetch_listener_always_answers UpgradeSamples.missing_pages
             CacheSamples.installed (CacheSamples.page "/nowhere")).
    + vm_compute. reflexivity.
    + vm_compute. reflexivity.
    + reflexivity.
  - vm_compute. reflexivity.
Defined.

End CacheExtras.

Section MoreExtras.
Import Js Net Edge Calls CallsFacts HeaderSets.

(** X18: every answer to a GET on [/proxy], in every outcome (missing
    parameter, relayed answer, failed fetch, status that cannot be
    relayed), carries [Access-Control-Allow-Origin: *] and carries
    neither [Content-Security-Policy] nor [X-Frame-Options], however the
    target spelled these names; and neither handler ever throws. *)
Theorem proxy_answers_are_always_embeddable (net : Network) (context : Context) :
  pathname (url (request context)) = "/proxy" ->
  method (request context) = "GET" ->
  (exists resp,
      fst (run net (Worker.fetch (request context) (env context))) = Ok resp /\
      Headers.get "Access-Control-Allow-Origin" (headers resp) = Some "*" /\
      forall n,
        Str.lower n = "content-security-policy" \/ Str.lower n = "x-frame-options" ->
        Headers.get n (headers resp) = None) /\
  (exists resp,
      fst (run net (ProxyFunction.onRequestGet context)) = Ok resp /\
      Headers.get "Access-Control-Allow-Origin" (headers resp) = Some "*" /\
      forall n,
        Str.lower n = "content-security-policy" \/ Str.lower n = "x-frame-options" ->
        Headers.get n (headers resp) = None).
Proof.
  intros Hp Hm.
  assert (Hpages :
    exists resp,
      fst (run net (ProxyFunction.onRequestGet context)) = Ok resp /\
      Headers.get "Access-Control-Allow-Origin" (headers resp) = Some "*" /\
      forall n,
        Str.lower n = "content-security-policy" \/ Str.lower n = "x-frame-options" ->
        Headers.get n (headers resp) = None).
  { assert (Hplain : forall st b,
               Headers.get "Access-Control-Allow-Origin"
                 (headers (mkResponse st ProxyAnswers.plain_cors b)) = Some "*" /\
               forall n,
                 Str.lower n = "content-security-policy" \/ Str.lower n = "x-frame-options" ->
                 Headers.get n (headers (mkResponse st ProxyAnswers.plain_cors b)) = None).
    { intros st b. split; [reflexivity|].
      intros n [E|E]; unfold Headers.get; rewrite E; reflexivity. }
    destruct (truthy (URLSearchParams.get "url" (searchParams (url (request context)))))
      eqn:Hu.
    - destruct (JsFacts.truthy_inv _ Hu) as (t & Ht & Hne).
      rewrite (ProxyFunctionFacts.run_get net _ t Ht Hne). cbn [fst].
      destruct (net (target_call t)) as [e|r] eqn:Hnet.
      { cbn [received]. eexists. split; [reflexivity|]. apply Hplain. }
      destruct (read_body r) as [bytes|e] eqn:Hread.
      2:{ cbn [received]. rewrite Hread. eexists. split; [reflexivity|]. apply Hplain. }
      rewrite (received_ok _ r bytes eq_refl Hread).
      destruct (decide (200 <= in_status r <= 599)) as [Hs|Hs].
      + rewrite (ProxyFunctionFacts.proxy_fn_relays r bytes Hs Hread).
        eexists. split; [reflexivity|]. cbn [headers]. split.
        * rewrite !JsFacts.get_delete_other by (vm_compute; discriminate).
          apply JsFacts.get_set_same. reflexivity.
        * intros n [E|E].
          -- rewrite JsFacts.get_delete_other by (rewrite E; vm_compute; discriminate).
             apply JsFacts.get_delete_same. rewrite E. reflexivity.
          -- apply JsFacts.get_delete_same. rewrite E. reflexivity.
      + rewrite (ProxyFunctionFacts.proxy_fn_bad_status r bytes Hs).
        eexists. split; [reflexivity|]. apply Hplain.
    - rewrite (ProxyFunctionFacts.run_missing net _ Hu).
      eexists. split; [reflexivity|]. apply Hplain. }
  split; [|exact Hpages]. clear Hpages.
  assert (Hplain : forall st b,
             Headers.get "Access-Control-Allow-Origin"
               (headers (mkResponse st WorkerAnswers.plain_cors b)) = Some "*" /\
             forall n,
               Str.lower n = "content-security-policy" \/ Str.lower n = "x-frame-options" ->
               Headers.get n (headers (mkResponse st WorkerAnswers.plain_cors b)) = None).
  { intros st b. split; [reflexivity|].
    intros n [E|E]; unfold Headers.get; rewrite E; reflexivity. }
  rewrite (WorkerFacts.fetch_proxy _ _ Hp) by (rewrite Hm; discriminate).
  destruct (truthy (URLSearchParams.get "url" (searchParams (url (request context)))))
    eqn:Hu.
  - destruct (JsFacts.truthy_inv _ Hu) as (t & Ht & Hne).
    rewrite (WorkerFacts.proxy_run net _ t Ht Hne). cbn [fst].
    destruct (net (target_call t)) as [e|r] eqn:Hnet.
    { cbn [received]. unfold WorkerAnswers.proxy_answer.
      rewrite WorkerFacts.proxy_error_response.
      eexists. split; [reflexivity|]. apply Hplain. }
    destruct (read_body r) as [bytes|e] eqn:Hread.
    2:{ cbn [received]. rewrite Hread. unfold WorkerAnswers.proxy_answer.
        rewrite WorkerFacts.proxy_error_response.
        eexists. split; [reflexivity|]. apply Hplain. }
    rewrite (received_ok _ r bytes eq_refl Hread).
    destruct (decide (200 <= in_status r <= 599)) as [Hs|Hs].
    + rewrite (WorkerFacts.proxy_answer_relays r bytes Hs Hread).
      eexists. split; [reflexivity|]. cbn [headers]. split.
      * apply (CorsFacts.with_cors_sets _ "Access-Control-Allow-Origin" "*").
        left. reflexivity.
      * intros n Hn.
        rewrite CorsFacts.with_cors_keeps
          by (destruct Hn as [E|E]; rewrite E; vm_compute; intuition discriminate).
        destruct Hn as [E|E].
        -- rewrite JsFacts.get_delete_other by (rewrite E; vm_compute; discriminate).
           apply JsFacts.get_delete_same. rewrite E. reflexivity.
        -- apply JsFacts.get_delete_same. rewrite E. reflexivity.
    + rewrite (WorkerFacts.proxy_answer_bad_status r bytes Hs).
      rewrite WorkerFacts.proxy_error_response.
      eexists. split; [reflexivity|]. apply Hplain.
  - rewrite (WorkerFacts.proxy_run_missing net _ Hu).
    eexists. split; [reflexivity|]. apply Hplain.
Qed.

(** A target that sends its frame policy in lower case. *)
Lemma proxy_answers_are_always_embeddable_witness :
  exists resp,
    fst (run (fun _ => Resolved (mkIncoming 200 [("x-frame-options", "DENY")] (Ok "<p/>")))
           (ProxyFunction.onRequestGet
              (mkContext (Samples.get_proxy "url=https://example.com/a") Samples.configured)))
    = Ok resp /\
    Headers.get "X-Frame-Options" (headers resp) = None.
Proof.
  destruct (proxy_answers_are_always_embeddable
              (fun _ => Resolved (mkIncoming 200 [("x-frame-options", "DENY")] (Ok "<p/>")))
              (mkContext (Samples.get_proxy "url=https://example.com/a") Samples.configured))
    as (_ & resp & Hr & _ & Hnone).
  - reflexivity.
  - reflexivity.
  - exists resp. split; [exact Hr|]. apply Hnone. right. reflexivity.
Defined.

(** X19: when the body of a POST to [/api/claude] cannot be read, the
    upstream is not called: the handler answers 502 with the message of
    that exception as the JSON [error]. *)
Theorem unreadable_body_gets_502
  (net : Network) (context : Context) (key : string) (err : Error) :
  pathname (url (request context)) = "/api/claude" ->
  method (request context) = "POST" ->
  ANTHROPIC_API_KEY (env context) = Some key -> key <> "" ->
  body (request context) = Throw err ->
  (exists resp,
      run net (Worker.fetch (request context) (env context)) = (Ok resp, []) /\
      status resp = 502 /\
      Js.body resp = BText (JSON.stringify [("error", message err)])) /\
  (exists resp,
      run net (ClaudeFunction.onRequestPost context) = (Ok resp, []) /\
      status resp = 502 /\
      Js.body resp = BText (JSON.stringify [("error", message err)])).
Proof.
  intros Hp Hm Hk Hne Hb. split.
  - rewrite (WorkerFacts.fetch_claude _ _ Hp Hm).
    rewrite (WorkerFacts.claude_run_unread net _ _ key err Hk Hne Hb).
    eexists. repeat split; reflexivity.
  - rewrite (ClaudeFunctionFacts.run_unread net _ key err Hk Hne Hb).
    eexists. repeat split; reflexivity.
Qed.

Lemma unreadable_body_gets_502_witness :
  exists resp,
    run Samples.answering
      (ClaudeFunction.onRequestPost
         (mkContext
            (mkRequest "POST" (Samples.site "/api/claude" "")
               (Throw (mkError "TypeError" "Body has already been used")))
            Samples.configured))
    = (Ok resp, []) /\
    status resp = 502 /\
    Js.body resp = BText (JSON.stringify [("error", "Body has already been used")]).
Proof.
  apply (unreadable_body_gets_502 Samples.answering
           (mkContext
              (mkRequest "POST" (Samples.site "/api/claude" "")
                 (Throw (mkError "TypeError" "Body has already been used")))
              Samples.configured)
           "sk-ant-api03-secret" (mkError "TypeError" "Body has already been used"));
    try reflexivity. discriminate.
Defined.

End MoreExtras.

Section HostExtras.
Import Js ServiceWorker CacheSteps ServiceWorkerFacts.

(** X20: the fetch listener decides what to intercept by host name and
    what to store by origin.  A GET to the worker's host on another port
    or scheme, outside the proxy paths, is therefore answered by the
    worker (from the caches or the network) but never stored. *)
Theorem same_host_other_origin_is_answered_not_stored (w : World) (s : State) (rq : Request) :
  hostname (url rq) = hostname (location w) ->
  origin (url rq) <> origin (location w) ->
  method rq = "GET" ->
  proxy_path rq = false ->
  (exists answer, fst (onfetch rq w s) = Ok (Some answer)) /\
  writes (snd (onfetch rq w s)) = writes s /\
  caches (snd (onfetch rq w s)) = caches s.
Proof.
  intros Hh Ho Hm Hp.
  assert (Hb : bypassed (location w) rq = false).
  { unfold bypassed. unfold proxy_path in Hp. rewrite Hp, Hh, Hm, String.eqb_refl.
    reflexivity. }
  destruct (lookup_caches (url rq) (caches s)) as [r|] eqn:Hl.
  { rewrite (onfetch_hit _ _ _ r Hb Hl). eauto. }
  destruct (network w rq) as [res|e] eqn:Hn.
  - rewrite (onfetch_miss _ _ _ res Hb Hl Hn).
    assert (Hst : storable w rq res = false).
    { unfold storable. apply andb_false_iff. right. apply bool_decide_eq_false. exact Ho. }
    rewrite Hst. eauto.
  - rewrite (onfetch_offline _ _ _ e Hb Hl Hn). eauto.
Qed.

Lemma same_host_other_origin_is_answered_not_stored_witness :
  writes (snd (onfetch (mkRequest "GET" (mkURL "http:" "athere.example" "8080" "/icon.png" ""))
                 CacheSamples.up CacheSamples.installed)) = [].
Proof.
  apply (same_host_other_origin_is_answered_not_stored CacheSamples.up CacheSamples.installed
           (mkRequest "GET" (mkURL "http:" "athere.example" "8080" "/icon.png" ""))).
  - reflexivity.
  - discriminate.
  - reflexivity.
  - reflexivity.
Defined.

End HostExtras.
